(** * humanlog: the Journal-JSON handler and the line dispatcher

    A shallow embedding of [journal_json_handler.go] (the handler for
    systemd-journal JSON export lines) and of [Scanner] (the dispatcher
    that offers every input line to the three handlers in turn), with the
    properties the specification states about them.

    Go strings and byte slices are [string] (a list of bytes); Go maps are
    stdpp finite maps; [map[string]struct{}] is a finite set.  A nil map
    and an empty map are the same value here: the code only reads, ranges
    over and takes [len] of maps that may be nil, and those agree on both.
    The writes to [h.Fields] happen after the nil check of
    [UnmarshalJournalJSON]. *)

From Stdlib Require Import ZArith String Ascii SpecFloat.
From stdpp Require Import base option list strings gmap sorting pretty.

#[local] Set Warnings "-register-all".
#[local] Open Scope Z_scope.

(** ** Byte-slice helpers ([bytes] and [strings] packages) *)

(** [bytes.HasPrefix] / [strings.HasPrefix]. *)
Definition HasPrefix (s pre : string) : bool := String.prefix pre s.

(** [bytes.Contains]: [subslice] occurs somewhere in [b]. *)
Fixpoint Contains (b subslice : string) : bool :=
  HasPrefix b subslice ||
  match b with
  | EmptyString => false
  | String _ b' => Contains b' subslice
  end.

Fixpoint string_drop (n : nat) (s : string) : string :=
  match n, s with
  | S n', String _ s' => string_drop n' s'
  | _, _ => s
  end.

Fixpoint string_take (n : nat) (s : string) : string :=
  match n, s with
  | S n', String c s' => String c (string_take n' s')
  | _, _ => EmptyString
  end.

(** No byte of [s] is [c]. *)
Fixpoint free_of (c : ascii) (s : string) : bool :=
  match s with
  | EmptyString => true
  | String c' s' => negb (Ascii.eqb c' c) && free_of c s'
  end.

(** The strings of a list put end to end. *)
Definition flatten (l : list string) : string := foldr String.append "" l.

(** [bytes.TrimPrefix]: [s] without the leading [pre], or [s] itself. *)
Definition TrimPrefix (s pre : string) : string :=
  if HasPrefix s pre then string_drop (String.length pre) s else s.

(** [strings.Join]. *)
Definition Join (elems : list string) (sep : string) : string :=
  String.concat sep elems.

(** ** [float64]

    IEEE-754 binary64 values, as the specification floats of the standard
    library with 53 bits of precision. *)

Module F64.
Definition prec : Z := 53.
Definition emax : Z := 1024.

Definition of_Z (n : Z) : spec_float := binary_normalize prec emax n 0 false.
Definition sub : spec_float → spec_float → spec_float := SFsub prec emax.
Definition ltb : spec_float → spec_float → bool := SFltb.

(** The literal [0.000001]: the binary64 nearest to 10^-6. *)
Definition lit_0_000001 : spec_float :=
  S754_finite false 4722366482869645 (-72).
(** The literal [1e9]. *)
Definition lit_1e9 : spec_float := of_Z 1000000000.

(** [math.Floor]: the greatest integer value not above [x]; zeros,
    infinities and NaN are returned as they are. *)
Definition Floor (x : spec_float) : spec_float :=
  match x with
  | S754_finite s m e =>
      if 0 <=? e then x
      else
        let q := Z.shiftr (Zpos m) (- e) in
        let exact := Zpos m =? Z.shiftl q (- e) in
        if s then (if exact then of_Z (- q) else of_Z (- (q + 1)))
        else of_Z q
  | _ => x
  end.

(** The conversion [int(v)] to a 64-bit [int]: truncation toward zero.
    The language leaves the result open when the value does not fit;
    amd64 yields the least [int64], which is what is modelled. *)
Definition min_int64 : Z := - 2 ^ 63.
Definition max_int64 : Z := 2 ^ 63 - 1.
Definition to_int (x : spec_float) : Z :=
  match x with
  | S754_zero _ => 0
  | S754_finite s m e =>
      let a := if 0 <=? e then Z.shiftl (Zpos m) e
               else Z.shiftr (Zpos m) (- e) in
      let n := if s then - a else a in
      if (min_int64 <=? n) && (n <=? max_int64) then n else min_int64
  | _ => min_int64
  end.
End F64.

Abbreviation float64 := spec_float (only parsing).

#[global] Instance float64_eq_dec : EqDecision float64.
Proof. solve_decision. Defined.

(** ** Decoded JSON values ([interface{}] after [json.Unmarshal])

    A nested object is a [map[string]interface{}]; it is only ever handed
    to the formatter, and is kept as the list of its members. *)

Inductive JValue :=
  | JNull
  | JBool (b : bool)
  | JNumber (v : float64)
  | JString (s : string)
  | JArray (l : list JValue)
  | JObject (m : list (string * JValue)).

(** ** [time.Time] *)

(** The zero value [time.Time{}] and the instants built by [time.Unix];
    the latter carry the local location, so they are never the zero value. *)
Inductive time_Time :=
  | TimeZero
  | TimeUnix (sec nsec : Z).

(** [time.Unix(sec, nsec)]: [nsec] is brought into [0, 1e9). *)
Definition time_Unix (sec nsec : Z) : time_Time :=
  if (nsec <? 0) || (1000000000 <=? nsec) then
    let n := Z.quot nsec 1000000000 in
    let sec := sec + n in
    let nsec := nsec - n * 1000000000 in
    if nsec <? 0 then TimeUnix (sec - 1) (nsec + 1000000000)
    else TimeUnix sec nsec
  else TimeUnix sec nsec.

(** ** [strconv.ParseInt(s, 10, 64)] *)

Definition digit_of (c : ascii) : option Z :=
  let n := Z.of_N (N_of_ascii c) in
  if (48 <=? n) && (n <=? 57) then Some (n - 48) else None.

Fixpoint parse_digits (s : string) (acc : Z) : option Z :=
  match s with
  | EmptyString => Some acc
  | String c s' =>
      match digit_of c with
      | Some d => parse_digits s' (10 * acc + d)
      | None => None
      end
  end.

(** [strconv.ParseUint(s, 10, 64)]: a non-empty run of decimal digits whose
    value fits 64 bits. *)
Definition ParseUint (s : string) : option Z :=
  match s with
  | EmptyString => None
  | _ => n ← parse_digits s 0; if n <? 2 ^ 64 then Some n else None
  end.

(** [strconv.ParseInt(s, 10, 64)]: an optional sign, then [ParseUint], then
    the range check of a signed 64-bit integer. *)
Definition ParseInt (s : string) : option Z :=
  match s with
  | EmptyString => None
  | String c s' =>
      let neg := Ascii.eqb c "-" in
      let s1 := if Ascii.eqb c "+" || neg then s' else s in
      un ← ParseUint s1;
      let cutoff := 2 ^ 63 in
      if negb neg && (cutoff <=? un) then None
      else if neg && (cutoff <? un) then None
      else Some (if neg then - un else un)
  end.

(** ** Colours ([github.com/fatih/color]) *)

Definition Attribute := Z.
Definition FgHiWhite : Attribute := 97.

Record Color := { params : list Attribute }.

(** [color.New(attrs...)]. *)
Definition color_New (attrs : list Attribute) : Color := {| params := attrs |}.

(** ** Library functions the handler calls

    The packages below are not part of the repository.  The handler is
    defined over any implementation of them; [Ref.lib] further down gives
    one to run the handler on concrete lines. *)
Class GoLib := {
  (** [json.Unmarshal(data, &raw)] into a fresh [map[string]interface{}];
      [None] is a non-nil error. *)
  json_Unmarshal : string → option (gmap string JValue);
  (** [fmt.Sprintf("%g", v)]. *)
  fmt_g : float64 → string;
  (** [fmt.Sprintf("%q", s)]. *)
  fmt_q : string → string;
  (** [fmt.Sprintf("%v", v)]. *)
  fmt_v : JValue → string;
  (** [strings.ToLower]. *)
  strings_ToLower : string → string;
  (** The method [Sprint] of a colour. *)
  color_Sprint : Color → string → string;
  (** [time.Time.Format(layout)]. *)
  time_Format : time_Time → string → string;
  (** What the [tabwriter.NewWriter(buf, 0, 1, 0, '\t', 0)] of the handler
      leaves in [buf] once the given text was written and flushed. *)
  tabwriter_Flush : string → string;
}.

(** [fmt.Sprintf("%d", n)]. *)
Definition fmt_d (n : Z) : string := pretty n.

(** ** [HandlerOptions]

    The record is declared outside the files at hand; these are the fields
    the handler and the dispatcher read.  [TruncateLength] is a Go [int];
    a negative one makes the slice expression of [joinKVs] panic, and the
    model takes it as a natural number. *)
Record HandlerOptions := {
  Skip : gset string;
  Keep : gset string;
  SortLongest : bool;
  SkipUnchanged : bool;
  Truncates : bool;
  LightBg : bool;
  TruncateLength : nat;
  TimeFormat : string;
  KeyColor : Color;
  ValColor : Color;
  TimeLightBgColor : Color;
  TimeDarkBgColor : Color;
  MsgLightBgColor : Color;
  MsgAbsentLightBgColor : Color;
  MsgDarkBgColor : Color;
  MsgAbsentDarkBgColor : Color;
  DebugLevelColor : Color;
  InfoLevelColor : Color;
  WarnLevelColor : Color;
  ErrorLevelColor : Color;
  FatalLevelColor : Color;
  UnknownLevelColor : Color;
}.

(** ** [JournalJSONHandler]

    [buf] and [out] are scratch space: [Prettify] writes one formatted
    text through [out] into [buf], returns the bytes and resets [buf], so
    they carry nothing from one line to the next and are left out.  [Opts]
    is the pointer [Scanner] stores when it builds the handler; the
    fallback of [Prettify] to [DefaultOptions] for a nil pointer does not
    arise then and is left out. *)
Record JournalJSONHandler := {
  Opts : HandlerOptions;
  Level : string;
  Time : time_Time;
  Message : string;
  Fields : gmap string string;
  last : gmap string string;
}.

Inductive error :=
  | ErrUnmarshal
  | ErrTimestampNotString
  | ErrParseInt.

(** ** The handler's methods *)

(** The byte [0x22]. *)
Definition dquote : ascii := "034"%char.

(** The marker [TryHandle] looks for: the key with its two quotes. *)
Definition marker : string :=
  String dquote ("_SOURCE_REALTIME_TIMESTAMP" +:+ String dquote "").

Section Handler.
Context `{GoLib}.

Definition clear (h : JournalJSONHandler) : JournalJSONHandler :=
  {| Opts := Opts h;
     Level := "";
     Time := TimeZero;
     Message := "";
     last := Fields h;
     Fields := ∅ |}.

(** The type switch in the loop of [UnmarshalJournalJSON]: the string
    stored for one remaining value. *)
Definition fieldString (val : JValue) : string :=
  match val with
  | JNumber v =>
      if F64.ltb (F64.sub v (F64.Floor v)) F64.lit_0_000001
         && F64.ltb v F64.lit_1e9
      then fmt_d (F64.to_int v)
      else fmt_g v
  | JString v => fmt_q v
  | _ => fmt_v val
  end.

(** [raw[key].(string)] followed by the conditional [delete]. *)
Definition takeString (raw : gmap string JValue) (key : string)
  : string * gmap string JValue :=
  match raw !! key with
  | Some (JString s) => (s, delete key raw)
  | _ => ("", raw)
  end.

Definition UnmarshalJournalJSON (h : JournalJSONHandler) (data : string)
  : JournalJSONHandler * option error :=
  match json_Unmarshal data with
  | None => (h, Some ErrUnmarshal)
  | Some raw =>
      let timestamped : gmap string JValue * JournalJSONHandler + error :=
        match raw !! "_SOURCE_REALTIME_TIMESTAMP" with
        | Some timestamp =>
            let raw := delete "_SOURCE_REALTIME_TIMESTAMP" raw in
            match timestamp with
            | JString timeString =>
                match ParseInt timeString with
                | None => inr ErrParseInt
                | Some timeMicros =>
                    inl (raw,
                         {| Opts := Opts h;
                            Level := Level h;
                            Time := time_Unix (Z.quot timeMicros 1000000)
                                      (Z.rem timeMicros 1000000 * 1000);
                            Message := Message h;
                            Fields := Fields h;
                            last := last h |})
                end
            | _ => inr ErrTimestampNotString
            end
        | None => inl (raw, h)
        end in
      match timestamped with
      | inr e => (h, Some e)
      | inl (raw, h) =>
          let '(message, raw) := takeString raw "MESSAGE" in
          let '(level, raw) := takeString raw "PRIORITY" in
          ({| Opts := Opts h;
              Level := level;
              Time := Time h;
              Message := message;
              Fields := map_fold (λ key val fields,
                                    <[key := fieldString val]> fields)
                          (Fields h) raw;
              last := last h |}, None)
      end
  end.

(** [TryHandle] tells if this line was handled by this handler. *)
Definition TryHandle (h : JournalJSONHandler) (d : string)
  : bool * JournalJSONHandler :=
  if negb (Contains d marker) then (false, h)
  else
    match UnmarshalJournalJSON h d with
    | (h, Some _) => (false, clear h)
    | (h, None) => (true, h)
    end.

Definition shouldShowKey (h : JournalJSONHandler) (key : string) : bool :=
  let o := Opts h in
  if bool_decide (size (Keep o) ≠ 0%nat)
     && (bool_decide (key ∈ Keep o)
         || bool_decide (strings_ToLower key ∈ Keep o))
  then true
  else if bool_decide (size (Skip o) ≠ 0%nat)
          && (bool_decide (key ∈ Skip o)
              || bool_decide (strings_ToLower key ∈ Skip o))
  then false
  else if HasPrefix key "_" then false
  else true.

Definition shouldShowUnchanged (h : JournalJSONHandler) (key : string) : bool :=
  let o := Opts h in
  if bool_decide (size (Keep o) ≠ 0%nat) && bool_decide (key ∈ Keep o)
  then true
  else if bool_decide (size (Keep o) ≠ 0%nat)
          && bool_decide (strings_ToLower key ∈ Keep o)
  then true
  else false.

(** The two guards at the head of the loop of [joinKVs]: [true] when the
    loop reaches the [append] for the pair. *)
Definition emitsKV (h : JournalJSONHandler) (skipUnchanged : bool)
  (kv : string * string) : bool :=
  let '(k, v) := kv in
  if negb (shouldShowKey h k) then false
  else if skipUnchanged
          && match last h !! k with
             | Some lastV => String.eqb lastV v && negb (shouldShowUnchanged h k)
             | None => false
             end
  then false
  else true.

(** The string [joinKVs] appends for a pair. *)
Definition renderKV (h : JournalJSONHandler) (sep : string)
  (kv : string * string) : string :=
  let '(k, v) := kv in
  let o := Opts h in
  let kstr := color_Sprint (KeyColor o) k in
  let vstr :=
    if Truncates o && bool_decide (TruncateLength o < String.length v)%nat
    then string_take (TruncateLength o) v +:+ "..."
    else v in
  let vstr := color_Sprint (ValColor o) vstr in
  kstr +:+ sep +:+ vstr.

(** [sort.Strings]: ascending byte-wise order. *)
Definition sort_Strings (kv : list string) : list string :=
  merge_sort String.le kv.

(** Modelled from the spec: the order of [byLongest], a type declared
    outside the files at hand: ascending rendered length. *)
Definition byLongest_Less (a b : string) : bool :=
  bool_decide (String.length a < String.length b)%nat.

(** [sort.Stable]: an element goes behind every element that is not
    greater, so equal elements keep their order. *)
Fixpoint stable_insert (less : string → string → bool) (x : string)
  (l : list string) : list string :=
  match l with
  | [] => [x]
  | y :: l' => if less x y then x :: l else y :: stable_insert less x l'
  end.

Definition sort_Stable (less : string → string → bool) (l : list string)
  : list string :=
  foldl (λ sorted x, stable_insert less x sorted) [] l.

(** [joinKVs] with the order in which [range h.Fields] yields the pairs
    made explicit: Go leaves that order open. *)
Definition joinKVs_range (range : list (string * string))
  (h : JournalJSONHandler) (skipUnchanged : bool) (sep : string) : list string :=
  let kv := foldl (λ kv p, if emitsKV h skipUnchanged p
                           then kv ++ [renderKV h sep p] else kv) [] range in
  let kv := sort_Strings kv in
  if SortLongest (Opts h) then sort_Stable byLongest_Less kv else kv.

Definition joinKVs (h : JournalJSONHandler) (skipUnchanged : bool)
  (sep : string) : list string :=
  joinKVs_range (map_to_list (Fields h)) h skipUnchanged sep.

(** The keys whose pair the loop of [joinKVs] appends. *)
Definition shownKeys (h : JournalJSONHandler) (skipUnchanged : bool)
  : list string :=
  (filter (λ p, emitsKV h skipUnchanged p = true) (map_to_list (Fields h))).*1.

(** The first part of [Prettify]: the two message styles. *)
Definition msgColors (h : JournalJSONHandler) : Color * Color :=
  let '(msgColor, msgAbsentColor) :=
    if LightBg (Opts h)
    then (MsgLightBgColor (Opts h), MsgAbsentLightBgColor (Opts h))
    else (MsgDarkBgColor (Opts h), MsgAbsentDarkBgColor (Opts h)) in
  let msgColor := color_New [FgHiWhite] in
  let msgAbsentColor := color_New [FgHiWhite] in
  (msgColor, msgAbsentColor).

Definition msgString (h : JournalJSONHandler) : string :=
  let '(msgColor, msgAbsentColor) := msgColors h in
  if String.eqb (Message h) "" then color_Sprint msgAbsentColor "<no msg>"
  else color_Sprint msgColor (Message h).

(** The switch on [h.Level]. *)
Definition levelString (h : JournalJSONHandler) : string :=
  match Level h with
  | "7" => color_Sprint (DebugLevelColor (Opts h)) "DEBU"
  | "5" | "6" => color_Sprint (InfoLevelColor (Opts h)) "INFO"
  | "4" => color_Sprint (WarnLevelColor (Opts h)) "WARN"
  | "3" => color_Sprint (ErrorLevelColor (Opts h)) "ERRO"
  | "2" | "1" | "0" => color_Sprint (FatalLevelColor (Opts h)) "FATA"
  | _ => color_Sprint (UnknownLevelColor (Opts h)) "UNKN"
  end.

Definition timeString (h : JournalJSONHandler) : string :=
  let timeColor :=
    if LightBg (Opts h) then TimeLightBgColor (Opts h)
    else TimeDarkBgColor (Opts h) in
  color_Sprint timeColor (time_Format (Time h) (TimeFormat (Opts h))).

(** The bytes [Prettify] formats into the tab writer. *)
Definition prettyText (range : list (string * string))
  (h : JournalJSONHandler) (skipUnchanged : bool) : string :=
  timeString h +:+ " |" +:+ levelString h +:+ "| " +:+ msgString h
  +:+ String "009" " "
  +:+ Join (joinKVs_range range h skipUnchanged "=") (String "009" " ").

(** [Prettify] with the iteration order of [h.Fields] made explicit; the
    deferred [clear] gives the handler returned. *)
Definition Prettify_range (range : list (string * string))
  (h : JournalJSONHandler) (skipUnchanged : bool)
  : string * JournalJSONHandler :=
  (tabwriter_Flush (prettyText range h skipUnchanged), clear h).

Definition Prettify (h : JournalJSONHandler) (skipUnchanged : bool)
  : string * JournalJSONHandler :=
  Prettify_range (map_to_list (Fields h)) h skipUnchanged.

End Handler.

(** ** The dispatcher *)

(** The two sibling handlers ([JSONHandler], [LogrusHandler]) and the
    [logfmt] parser are declared outside the files at hand; [Scanner] is
    defined over any implementation of the methods it calls.  Each method
    takes the handler and returns it, as the methods have pointer
    receivers. *)
Class Siblings := {
  JSONHandler : Type;
  LogrusHandler : Type;
  (** [JSONHandler{Opts: opts}] and [LogrusHandler{Opts: opts}]. *)
  JSONHandler_new : HandlerOptions → JSONHandler;
  LogrusHandler_new : HandlerOptions → LogrusHandler;
  JSON_TryHandle : JSONHandler → string → bool * JSONHandler;
  JSON_Prettify : JSONHandler → bool → string * JSONHandler;
  Logrus_CanHandle : LogrusHandler → string → bool * LogrusHandler;
  (** [logfmt.Parse(lineData, true, true, logrusEntry.visit)]. *)
  logfmt_Parse : string → LogrusHandler → bool * LogrusHandler;
  Logrus_Prettify : LogrusHandler → bool → string * LogrusHandler;
}.

Definition eol : string := String "010" "".

(** [bufio.ScanLines]: the lines of the input without their end-of-line
    marker (one optional carriage return, then a newline); the last
    non-empty line is returned also without a newline. *)
Definition dropCR (data : string) : string :=
  let n := String.length data in
  if bool_decide (0 < n)%nat
     && bool_decide (String.get (n - 1) data = Some "013"%char)
  then string_take (n - 1) data else data.

Fixpoint ScanLines_from (cur data : string) : list string :=
  match data with
  | EmptyString => if String.eqb cur "" then [] else [dropCR cur]
  | String c data' =>
      if Ascii.eqb c "010" then dropCR cur :: ScanLines_from "" data'
      else ScanLines_from (cur +:+ String c "") data'
  end.

Definition ScanLines (src : string) : list string := ScanLines_from "" src.

(** [bufio.MaxScanTokenSize], the size to which the buffer of a
    [bufio.Scanner] grows, and the error of [Scan] when the buffer is full
    and holds no complete token. *)
Definition MaxScanTokenSize : Z := 64 * 1024.

Inductive bufio_error :=
  | ErrTooLong.

(** [bufio.Scanner] with the split function [bufio.ScanLines] on an input
    held in memory, whose reader reports the end by a read of no bytes:
    the tokens that [in.Scan()] delivers, in order, and [in.Err()] after
    the last.  [cur] is the part of the current line already in the
    buffer.  Once the buffer holds [MaxScanTokenSize] bytes without a
    newline among them it cannot grow, and [Scan] stops with [ErrTooLong]:
    a line of [MaxScanTokenSize] bytes or more, its carriage return
    counted, is not delivered, and nothing after it is. *)
Fixpoint Scan_from (cur data : string) : list string * option bufio_error :=
  if MaxScanTokenSize <=? Z.of_nat (String.length cur)
  then ([], Some ErrTooLong)
  else
    match data with
    | EmptyString =>
        (if String.eqb cur "" then [] else [dropCR cur], None)
    | String c data' =>
        if Ascii.eqb c "010" then
          let '(lines, err) := Scan_from "" data' in (dropCR cur :: lines, err)
        else Scan_from (cur +:+ String c "") data'
    end.

Definition Scan (src : string) : list string * option bufio_error :=
  Scan_from "" src.

Section Dispatcher.
Context `{GoLib} `{Siblings}.

(** The variables of [Scanner] that live across lines, and the bytes
    written to [dst] so far. *)
Record ScannerState := {
  line : Z;
  lastLogrus : bool;
  lastJSON : bool;
  lastJournalJSON : bool;
  logrusEntry : LogrusHandler;
  jsonEntry : JSONHandler;
  journalJSONEntry : JournalJSONHandler;
  dst : string;
}.

Definition emptyJournalJSONHandler (opts : HandlerOptions) : JournalJSONHandler :=
  {| Opts := opts; Level := ""; Time := TimeZero; Message := "";
     Fields := ∅; last := ∅ |}.

Definition Scanner_init (opts : HandlerOptions) : ScannerState :=
  {| line := 0;
     lastLogrus := false;
     lastJSON := false;
     lastJournalJSON := false;
     logrusEntry := LogrusHandler_new opts;
     jsonEntry := JSONHandler_new opts;
     journalJSONEntry := emptyJournalJSONHandler opts;
     dst := "" |}.

(** The [switch] of the loop body: the state after the chosen case, and
    the bytes that case writes. *)
Definition Scanner_switch (opts : HandlerOptions) (st : ScannerState)
  (lineData : string) : ScannerState * string :=
  let '(okJournal, journal) := TryHandle (journalJSONEntry st) lineData in
  if okJournal then
    let '(out, journal) :=
      Prettify journal (SkipUnchanged opts && lastJournalJSON st) in
    ({| line := line st;
        lastLogrus := lastLogrus st;
        lastJSON := lastJSON st;
        lastJournalJSON := true;
        logrusEntry := logrusEntry st;
        jsonEntry := jsonEntry st;
        journalJSONEntry := journal;
        dst := dst st |}, out)
  else
    let '(okJSON, json) := JSON_TryHandle (jsonEntry st) lineData in
    if okJSON then
      let '(out, json) := JSON_Prettify json (SkipUnchanged opts && lastJSON st) in
      ({| line := line st;
          lastLogrus := lastLogrus st;
          lastJSON := true;
          lastJournalJSON := lastJournalJSON st;
          logrusEntry := logrusEntry st;
          jsonEntry := json;
          journalJSONEntry := journal;
          dst := dst st |}, out)
    else
      let '(can, logrus) := Logrus_CanHandle (logrusEntry st) lineData in
      let '(okLogrus, logrus) :=
        if can then logfmt_Parse lineData logrus else (false, logrus) in
      if okLogrus then
        let '(out, logrus) :=
          Logrus_Prettify logrus (SkipUnchanged opts && lastLogrus st) in
        ({| line := line st;
            lastLogrus := true;
            lastJSON := lastJSON st;
            lastJournalJSON := lastJournalJSON st;
            logrusEntry := logrus;
            jsonEntry := json;
            journalJSONEntry := journal;
            dst := dst st |}, out)
      else
        ({| line := line st;
            lastLogrus := false;
            lastJSON := false;
            lastJournalJSON := false;
            logrusEntry := logrus;
            jsonEntry := json;
            journalJSONEntry := journal;
            dst := dst st |}, lineData).

(** One turn of the loop of [Scanner] on the line [in.Bytes()]. *)
Definition Scanner_line (opts : HandlerOptions) (st : ScannerState)
  (lineBytes : string) : ScannerState :=
  let line := (line st + 1) `mod` 2 ^ 64 in
  let lineData := TrimPrefix lineBytes "@cee: " in
  let '(st', written) := Scanner_switch opts st lineData in
  {| line := line;
     lastLogrus := lastLogrus st';
     lastJSON := lastJSON st';
     lastJournalJSON := lastJournalJSON st';
     logrusEntry := logrusEntry st';
     jsonEntry := jsonEntry st';
     journalJSONEntry := journalJSONEntry st';
     dst := dst st +:+ written +:+ eol |}.

Definition Scanner_lines (opts : HandlerOptions) (lines : list string)
  (st : ScannerState) : ScannerState :=
  foldl (Scanner_line opts) st lines.

(** What each line of a run adds to [dst], in order. *)
Fixpoint Scanner_outputs (opts : HandlerOptions) (lines : list string)
  (st : ScannerState) : list string :=
  match lines with
  | [] => []
  | l :: lines =>
      ((Scanner_switch opts st (TrimPrefix l "@cee: ")).2 +:+ eol)
      :: Scanner_outputs opts lines (Scanner_line opts st l)
  end.

(** [Scanner] on an input held in memory, with a writer that takes every
    byte: the bytes written to [dst] and the error returned.  The loop
    runs on the lines that [in.Scan()] delivers; when it ends, [in.Err()]
    is the result, so a line beyond the limit of the buffer ends the run
    with [ErrTooLong] after the lines before it were written. *)
Definition Scanner (src : string) (opts : HandlerOptions)
  : string * option bufio_error :=
  let '(lines, err) := Scan src in
  (dst (Scanner_lines opts lines (Scanner_init opts)), err).

End Dispatcher.

(** ** A reference implementation of the library functions

    Enough of [encoding/json], [fmt], [strings], [color], [time] and
    [tabwriter] to run the handler and the dispatcher on concrete lines.
    The statements that hold for every line are proved over every
    [GoLib]; this instance only serves the examples.  Its limits are
    given with each function. *)

Module Ref.

Definition is_ws (c : ascii) : bool :=
  Ascii.eqb c " " || Ascii.eqb c "009" || Ascii.eqb c "010" || Ascii.eqb c "013".

Fixpoint skip_ws (s : string) : string :=
  match s with
  | String c s' => if is_ws c then skip_ws s' else s
  | EmptyString => s
  end.

Definition code (c : ascii) : Z := Z.of_N (N_of_ascii c).
Definition chr (n : Z) : ascii := ascii_of_N (Z.to_N n).

Definition hex_of (c : ascii) : option Z :=
  let n := code c in
  if (48 <=? n) && (n <=? 57) then Some (n - 48)
  else if (97 <=? n) && (n <=? 102) then Some (n - 87)
  else if (65 <=? n) && (n <=? 70) then Some (n - 55)
  else None.

(** Four hexadecimal digits and what follows them. *)
Definition take_hex4 (s : string) : option (Z * string) :=
  match s with
  | String a (String b (String c (String d rest))) =>
      x ← hex_of a; y ← hex_of b; z ← hex_of c; w ← hex_of d;
      Some (((x * 16 + y) * 16 + z) * 16 + w, rest)
  | _ => None
  end.

(** The UTF-8 encoding of a code point. *)
Definition utf8 (cp : Z) : string :=
  if cp <? 128 then String (chr cp) ""
  else if cp <? 2048 then
    String (chr (192 + cp / 64)) (String (chr (128 + cp mod 64)) "")
  else if cp <? 65536 then
    String (chr (224 + cp / 4096))
      (String (chr (128 + (cp / 64) mod 64))
         (String (chr (128 + cp mod 64)) ""))
  else
    String (chr (240 + cp / 262144))
      (String (chr (128 + (cp / 4096) mod 64))
         (String (chr (128 + (cp / 64) mod 64))
            (String (chr (128 + cp mod 64)) ""))).

Definition replacement_char : Z := 65533.

(** A [\u] escape, after the [u]: the code point, with a surrogate pair
    joined and a lone surrogate replaced, and what follows. *)
Definition take_unicode (s : string) : option (Z * string) :=
  '(cp, rest) ← take_hex4 s;
  if (55296 <=? cp) && (cp <? 56320) then
    match rest with
    | String b (String u rest2) =>
        if Ascii.eqb b "\" && Ascii.eqb u "u" then
          match take_hex4 rest2 with
          | Some (lo, rest3) =>
              if (56320 <=? lo) && (lo <? 57344)
              then Some (65536 + (cp - 55296) * 1024 + (lo - 56320), rest3)
              else Some (replacement_char, rest)
          | None => Some (replacement_char, rest)
          end
        else Some (replacement_char, rest)
    | _ => Some (replacement_char, rest)
    end
  else if (56320 <=? cp) && (cp <? 57344) then Some (replacement_char, rest)
  else Some (cp, rest).

(** The body of a string literal, after the opening quote: the decoded
    bytes and what follows the closing quote.  Bytes above 127 are copied
    (the decoder of Go also replaces ill-formed UTF-8). *)
Fixpoint parse_string_body (fuel : nat) (s : string) : option (string * string) :=
  match fuel, s with
  | S fuel, String c s' =>
      if Ascii.eqb c dquote then Some ("", s')
      else if Ascii.eqb c "\" then
        match s' with
        | String e s'' =>
            let simple (b : Z) :=
              '(body, rest) ← parse_string_body fuel s'';
              Some (String (chr b) body, rest) in
            if Ascii.eqb e dquote then simple 34
            else if Ascii.eqb e "\" then simple 92
            else if Ascii.eqb e "/" then simple 47
            else if Ascii.eqb e "b" then simple 8
            else if Ascii.eqb e "f" then simple 12
            else if Ascii.eqb e "n" then simple 10
            else if Ascii.eqb e "r" then simple 13
            else if Ascii.eqb e "t" then simple 9
            else if Ascii.eqb e "u" then
              '(cp, rest) ← take_unicode s'';
              '(body, rest) ← parse_string_body fuel rest;
              Some (utf8 cp +:+ body, rest)
            else None
        | EmptyString => None
        end
      else if code c <? 32 then None
      else
        '(body, rest) ← parse_string_body fuel s';
        Some (String c body, rest)
  | _, _ => None
  end.

(** A run of decimal digits: their number, their value, and the rest. *)
Fixpoint take_digits (s : string) (n : nat) (acc : Z) : nat * Z * string :=
  match s with
  | String c s' =>
      match digit_of c with
      | Some d => take_digits s' (S n) (10 * acc + d)
      | None => (n, acc, s)
      end
  | EmptyString => (n, acc, s)
  end.

(** [strconv.ParseFloat] on the decimal [m * 10^e]: the nearest binary64,
    ties to even; a value that rounds to an infinity is an error. *)
Definition decimal_to_float (neg : bool) (m e : Z) : option float64 :=
  match m with
  | Zpos p =>
      let r :=
        if 0 <=? e then
          binary_round F64.prec F64.emax neg (Z.to_pos (m * 10 ^ e)) 0
        else
          let '(q, e', l) :=
            SFdiv_core_binary F64.prec F64.emax m 0 (10 ^ (- e)) 0 in
          binary_round_aux F64.prec F64.emax neg q e' l in
      match r with
      | S754_infinity _ => None
      | _ => Some r
      end
  | _ => Some (S754_zero neg)
  end.

(** A JSON number at the head of [s]. *)
Definition parse_number (s : string) : option (float64 * string) :=
  let '(neg, s) :=
    match s with
    | String c s' => if Ascii.eqb c "-" then (true, s') else (false, s)
    | EmptyString => (false, s)
    end in
  let '(n, int_part, rest) := take_digits s 0 0 in
  if bool_decide (n = 0%nat) then None
  else if bool_decide (1 < n)%nat && HasPrefix s "0" then None
  else
    frac ← match rest with
           | String c rest' =>
               if Ascii.eqb c "." then
                 let '(k, m, rest'') := take_digits rest' 0 int_part in
                 if bool_decide (k = 0%nat) then None
                 else Some (m, Z.of_nat k, rest'')
               else Some (int_part, 0, rest)
           | EmptyString => Some (int_part, 0, rest)
           end;
    let '(m, k, rest) := frac in
    ex ← match rest with
         | String c rest' =>
             if Ascii.eqb c "e" || Ascii.eqb c "E" then
               let '(eneg, rest') :=
                 match rest' with
                 | String sg r =>
                     if Ascii.eqb sg "-" then (true, r)
                     else if Ascii.eqb sg "+" then (false, r)
                     else (false, rest')
                 | EmptyString => (false, rest')
                 end in
               let '(j, x, rest'') := take_digits rest' 0 0 in
               if bool_decide (j = 0%nat) then None
               else Some (if eneg then - x else x, rest'')
             else Some (0, rest)
         | EmptyString => Some (0, rest)
         end;
    let '(x, rest) := ex in
    v ← decimal_to_float neg m (x - k);
    Some (v, rest).

(** A member replaces an earlier one with the same name. *)
Fixpoint obj_insert (k : string) (v : JValue) (l : list (string * JValue))
  : list (string * JValue) :=
  match l with
  | [] => [(k, v)]
  | (k', v') :: l' =>
      if String.eqb k k' then (k, v) :: l' else (k', v') :: obj_insert k v l'
  end.

Definition expect (c : ascii) (s : string) : option string :=
  match s with
  | String c' s' => if Ascii.eqb c c' then Some s' else None
  | EmptyString => None
  end.

(** A JSON value at the head of [s] (after white space), and the rest. *)
Fixpoint parse_value (fuel : nat) (s : string) : option (JValue * string) :=
  match fuel with
  | O => None
  | S fuel =>
      let s := skip_ws s in
      match s with
      | EmptyString => None
      | String c s' =>
          if Ascii.eqb c "{" then
            match skip_ws s' with
            | String c' s'' =>
                if Ascii.eqb c' "}" then Some (JObject [], s'')
                else parse_members fuel [] s'
            | EmptyString => None
            end
          else if Ascii.eqb c "[" then
            match skip_ws s' with
            | String c' s'' =>
                if Ascii.eqb c' "]" then Some (JArray [], s'')
                else parse_elements fuel [] s'
            | EmptyString => None
            end
          else if Ascii.eqb c dquote then
            '(str, rest) ← parse_string_body (String.length s') s';
            Some (JString str, rest)
          else if HasPrefix s "true" then Some (JBool true, string_drop 4 s)
          else if HasPrefix s "false" then Some (JBool false, string_drop 5 s)
          else if HasPrefix s "null" then Some (JNull, string_drop 4 s)
          else
            '(v, rest) ← parse_number s;
            Some (JNumber v, rest)
      end
  end
with parse_members (fuel : nat) (acc : list (string * JValue)) (s : string)
  : option (JValue * string) :=
  match fuel with
  | O => None
  | S fuel =>
      s ← expect dquote (skip_ws s);
      '(k, s) ← parse_string_body (String.length s) s;
      s ← expect ":" (skip_ws s);
      '(v, s) ← parse_value fuel s;
      let acc := obj_insert k v acc in
      match skip_ws s with
      | String c s' =>
          if Ascii.eqb c "," then parse_members fuel acc s'
          else if Ascii.eqb c "}" then Some (JObject acc, s')
          else None
      | EmptyString => None
      end
  end
with parse_elements (fuel : nat) (acc : list JValue) (s : string)
  : option (JValue * string) :=
  match fuel with
  | O => None
  | S fuel =>
      '(v, s) ← parse_value fuel s;
      let acc := acc ++ [v] in
      match skip_ws s with
      | String c s' =>
          if Ascii.eqb c "," then parse_elements fuel acc s'
          else if Ascii.eqb c "]" then Some (JArray acc, s')
          else None
      | EmptyString => None
      end
  end.

(** [json.Unmarshal] into an empty [map[string]interface{}]: the input is
    one JSON value and white space; an object fills the map, [null]
    leaves it empty, any other value is an error. *)
Definition json_Unmarshal (data : string) : option (gmap string JValue) :=
  '(v, rest) ← parse_value (S (String.length data)) data;
  if negb (String.eqb (skip_ws rest) "") then None
  else
    match v with
    | JObject members => Some (list_to_map members)
    | JNull => Some ∅
    | _ => None
    end.

(** *** [fmt]: the verbs [%g], [%q] and [%v] *)

(** The number of decimal digits of a positive integer. *)
Fixpoint digits10 (fuel : nat) (n : Z) : Z :=
  match fuel with
  | O => 0
  | S fuel => if n <? 10 then 1 else 1 + digits10 fuel (n / 10)
  end.

(** The least [j] from [1] on with [n * 10^j >= d]. *)
Fixpoint scale_up (fuel : nat) (n d j : Z) : Z :=
  match fuel with
  | O => j
  | S fuel => if d <=? n * 10 ^ j then j else scale_up fuel n d (j + 1)
  end.

Fixpoint strip_zeros (fuel : nat) (c s : Z) : Z * Z :=
  match fuel with
  | O => (c, s)
  | S fuel => if (c mod 10 =? 0) && (0 <? c) then strip_zeros fuel (c / 10) (s - 1)
              else (c, s)
  end.

(** The shortest decimal that reads back as the positive binary64
    [m * 2^e]: its digits [c] and scale [s], for the value [c * 10^-s]. *)
Fixpoint shortest_from (fuel : nat) (v : float64) (num den x n : Z) : Z * Z :=
  match fuel with
  | O => (0, 0)
  | S fuel =>
      let s := n - 1 - x in
      let '(a, b) := if 0 <=? s then (num * 10 ^ s, den)
                     else (num, den * 10 ^ (- s)) in
      let lo := a / b in
      let r := a mod b in
      let ok c := bool_decide (decimal_to_float false c (- s) = Some v) in
      let near_lo := 2 * r <=? b in
      if ok lo && (near_lo || negb (ok (lo + 1))) then (lo, s)
      else if ok (lo + 1) then (lo + 1, s)
      else shortest_from fuel v num den x (n + 1)
  end.

Definition shortest (m : positive) (e : Z) : Z * Z :=
  let '(num, den) := if 0 <=? e then (Zpos m * 2 ^ e, 1)
                     else (Zpos m, 2 ^ (- e)) in
  let x := if den <=? num then digits10 400 (num / den) - 1
           else - scale_up 400 num den 1 in
  let '(c, s) := shortest_from 17 (S754_finite false m e) num den x 1 in
  strip_zeros 400 c s.

Definition digit_at (digs : string) (i : Z) : ascii :=
  if i <? 0 then "0"%char
  else match String.get (Z.to_nat i) digs with
       | Some c => c
       | None => "0"%char
       end.

Definition digits_range (digs : string) (from len : Z) : string :=
  string_of_list_ascii
    (map (λ i, digit_at digs (from + Z.of_nat i)) (seq 0 (Z.to_nat len))).

(** [%e] with the shortest digits: [d.ddde+xx]. *)
Definition fmtE (digs : string) (dp : Z) : string :=
  let nd := Z.of_nat (String.length digs) in
  let ex := dp - 1 in
  let mant := String (digit_at digs 0)
                (if 1 <? nd then "." +:+ digits_range digs 1 (nd - 1) else "") in
  let ex_digits := pretty (Z.abs ex) in
  mant +:+ "e" +:+ (if ex <? 0 then "-" else "+")
       +:+ (if Z.abs ex <? 10 then "0" else "") +:+ ex_digits.

(** [%f] with the shortest digits. *)
Definition fmtF (digs : string) (dp : Z) : string :=
  let nd := Z.of_nat (String.length digs) in
  let int_part := if 0 <? dp then digits_range digs 0 dp else "0" in
  let prec := Z.max (nd - dp) 0 in
  int_part +:+ (if 0 <? prec then "." +:+ digits_range digs dp prec else "").

(** [fmt.Sprintf("%g", v)]: the shortest digits, in [%e] form when the
    decimal exponent is below [-4] or at least [6]. *)
Definition fmt_g (v : float64) : string :=
  match v with
  | S754_nan => "NaN"
  | S754_infinity s => if s then "-Inf" else "+Inf"
  | S754_zero s => if s then "-0" else "0"
  | S754_finite sg m e =>
      let '(c, s) := shortest m e in
      let digs := pretty c in
      let dp := Z.of_nat (String.length digs) - s in
      let ex := dp - 1 in
      (if sg then "-" else "")
      +:+ (if (ex <? -4) || (6 <=? ex) then fmtE digs dp else fmtF digs dp)
  end.

Definition hex_digit (n : Z) : ascii :=
  if n <? 10 then chr (48 + n) else chr (87 + n).

(** [fmt.Sprintf("%q", s)], that is [strconv.Quote].  Bytes above 127 are
    copied (Go escapes those that are not printable UTF-8). *)
Fixpoint quote_body (s : string) : string :=
  match s with
  | EmptyString => String dquote ""
  | String c s' =>
      let n := code c in
      let esc (e : string) := "\" +:+ e +:+ quote_body s' in
      if n =? 34 then String "\" (String dquote (quote_body s'))
      else if n =? 92 then esc "\"
      else if n =? 7 then esc "a"
      else if n =? 8 then esc "b"
      else if n =? 12 then esc "f"
      else if n =? 10 then esc "n"
      else if n =? 13 then esc "r"
      else if n =? 9 then esc "t"
      else if n =? 11 then esc "v"
      else if (n <? 32) || (n =? 127) then
        esc (String "x" (String (hex_digit (n / 16)) (String (hex_digit (n mod 16)) "")))
      else String c (quote_body s')
  end.

Definition fmt_q (s : string) : string := String dquote (quote_body s).

(** [fmt.Sprintf("%v", v)] on a decoded value: a map prints its members
    in the order of their keys. *)
Fixpoint fmt_v (v : JValue) : string :=
  match v with
  | JNull => "<nil>"
  | JBool b => if b then "true" else "false"
  | JNumber x => fmt_g x
  | JString s => s
  | JArray l => "[" +:+ Join (map fmt_v l) " " +:+ "]"
  | JObject m =>
      let members := map (λ '(k, x), (k, k +:+ ":" +:+ fmt_v x)) m in
      "map[" +:+ Join (merge_sort (λ a b, String.le a.1 b.1) members).*2 " " +:+ "]"
  end.

(** [strings.ToLower] on ASCII letters; other bytes are copied (Go also
    maps the upper-case letters beyond ASCII). *)
Fixpoint ToLower (s : string) : string :=
  match s with
  | EmptyString => EmptyString
  | String c s' =>
      let n := code c in
      String (if (65 <=? n) && (n <=? 90) then chr (n + 32) else c) (ToLower s')
  end.

(** [Sprint] of a colour with colours enabled: the text between the
    escape sequence of the attributes and the reset sequence. *)
Definition esc : ascii := "027"%char.
Definition Sprint (c : Color) (s : string) : string :=
  String esc ("[" +:+ Join (map pretty (params c)) ";" +:+ "m")
  +:+ s +:+ String esc "[0m".

(** A stand-in for [time.Time.Format]: the layout-driven formatter of Go
    is not modelled; the instant is printed as seconds and nanoseconds. *)
Definition Format (t : time_Time) (layout : string) : string :=
  match t with
  | TimeZero => "zero"
  | TimeUnix sec nsec => pretty sec +:+ "." +:+ pretty nsec
  end.

(** The tab writer of the handler on a text of one line: every column
    is as wide as its only cell, no padding is due, and the cells come out
    without the tabs that ended them.  (Over several lines the writer
    pads; that is not modelled.) *)
Fixpoint drop_tabs (s : string) : string :=
  match s with
  | EmptyString => EmptyString
  | String c s' => if Ascii.eqb c "009" then drop_tabs s' else String c (drop_tabs s')
  end.

Definition lib : GoLib :=
  Build_GoLib json_Unmarshal fmt_g fmt_q fmt_v ToLower Sprint Format drop_tabs.

(** *** The sibling handlers *)

(** Modelled from the spec: [JSONHandler.TryHandle], whose code is
    outside the files at hand: the generic-JSON handler accepts any
    parseable JSON object not matching the Journal-JSON marker key. *)
Definition accepts_json (d : string) : bool :=
  negb (Contains d marker)
  && match parse_value (S (String.length d)) d with
     | Some (JObject _, rest) => String.eqb (skip_ws rest) ""
     | _ => false
     end.

(** Modelled from the spec: the strict [logfmt] parser, whose code is
    outside the files at hand: a line of [key=value] tokens, quoted values
    honoured, and no malformed token (such as a bare [=]). *)
Inductive logfmt_state :=
  | LGap (seen : bool)
  | LKey
  | LValueStart
  | LValue
  | LQuoted
  | LEscaped
  | LClosed.

Definition logfmt_plain (c : ascii) : bool :=
  (32 <? code c) && negb (Ascii.eqb c "=") && negb (Ascii.eqb c dquote).

Definition logfmt_step (st : logfmt_state) (c : ascii) : option logfmt_state :=
  match st with
  | LGap seen =>
      if Ascii.eqb c " " then Some (LGap seen)
      else if logfmt_plain c then Some LKey else None
  | LKey =>
      if Ascii.eqb c "=" then Some LValueStart
      else if logfmt_plain c then Some LKey else None
  | LValueStart =>
      if Ascii.eqb c dquote then Some LQuoted
      else if Ascii.eqb c " " then Some (LGap true)
      else if logfmt_plain c then Some LValue else None
  | LValue =>
      if Ascii.eqb c " " then Some (LGap true)
      else if logfmt_plain c then Some LValue else None
  | LQuoted =>
      if Ascii.eqb c dquote then Some LClosed
      else if Ascii.eqb c "\" then Some LEscaped
      else Some LQuoted
  | LEscaped => Some LQuoted
  | LClosed => if Ascii.eqb c " " then Some (LGap true) else None
  end.

Fixpoint logfmt_run (st : logfmt_state) (s : string) : bool :=
  match s with
  | EmptyString =>
      match st with
      | LGap seen => seen
      | LValueStart | LValue | LClosed => true
      | _ => false
      end
  | String c s' =>
      match logfmt_step st c with
      | Some st' => logfmt_run st' s'
      | None => false
      end
  end.

Definition accepts_logfmt (d : string) : bool := logfmt_run (LGap false) d.

(** Modelled from the spec: the two sibling handlers as far as the
    dispatcher depends on them, that is which lines they accept.  What
    they render is outside the files at hand; the model holds the accepted
    line and writes it as it is. *)
Definition siblings : Siblings :=
  {| JSONHandler := string;
     LogrusHandler := string;
     JSONHandler_new := λ _, "";
     LogrusHandler_new := λ _, "";
     JSON_TryHandle := λ h d, if accepts_json d then (true, d) else (false, h);
     JSON_Prettify := λ h _, (h, "");
     Logrus_CanHandle := λ h _, (true, h);
     logfmt_Parse := λ d h, if accepts_logfmt d then (true, d) else (false, h);
     Logrus_Prettify := λ h _, (h, "") |}.

(** JSON lines are written with apostrophes in place of the double
    quotes; [dq] puts the quotes back. *)
Fixpoint dq (s : string) : string :=
  match s with
  | String c s' => String (if Ascii.eqb c "'" then dquote else c) (dq s')
  | EmptyString => EmptyString
  end.

(** Options with nothing kept or skipped, and distinct colours. *)
Definition opts0 : HandlerOptions :=
  {| Skip := ∅;
     Keep := ∅;
     SortLongest := false;
     SkipUnchanged := true;
     Truncates := false;
     LightBg := false;
     TruncateLength := 15;
     TimeFormat := "Jan _2 15:04:05";
     KeyColor := color_New [32];
     ValColor := color_New [33];
     TimeLightBgColor := color_New [30];
     TimeDarkBgColor := color_New [37];
     MsgLightBgColor := color_New [30];
     MsgAbsentLightBgColor := color_New [90];
     MsgDarkBgColor := color_New [36];
     MsgAbsentDarkBgColor := color_New [35];
     DebugLevelColor := color_New [35];
     InfoLevelColor := color_New [36];
     WarnLevelColor := color_New [33];
     ErrorLevelColor := color_New [31];
     FatalLevelColor := color_New [41];
     UnknownLevelColor := color_New [34] |}.

End Ref.

(** ** Reading aids for the statements *)

(** The level code as the specification words it: the four-letter code of
    a raw priority, [UNKN] for any other or absent one. *)
Definition priorityCode (priority : option JValue) : string :=
  match priority with
  | Some (JString "7") => "DEBU"
  | Some (JString "5") | Some (JString "6") => "INFO"
  | Some (JString "4") => "WARN"
  | Some (JString "3") => "ERRO"
  | Some (JString "0") | Some (JString "1") | Some (JString "2") => "FATA"
  | _ => "UNKN"
  end.

(** The style the options assign to a level code. *)
Definition levelColor (o : HandlerOptions) (code : string) : Color :=
  match code with
  | "DEBU" => DebugLevelColor o
  | "INFO" => InfoLevelColor o
  | "WARN" => WarnLevelColor o
  | "ERRO" => ErrorLevelColor o
  | "FATA" => FatalLevelColor o
  | _ => UnknownLevelColor o
  end.

(** The message styles as the specification words them: the variants the
    [LightBg] option selects. *)
Definition selectedMsgColors (o : HandlerOptions) : Color * Color :=
  if LightBg o then (MsgLightBgColor o, MsgAbsentLightBgColor o)
  else (MsgDarkBgColor o, MsgAbsentDarkBgColor o).

(** The integer form as the specification words it: a fractional part
    within 1e-6 of zero and a magnitude below 1e9. *)
Definition integerFormBySpec (v : float64) : bool :=
  F64.ltb (F64.sub v (F64.Floor v)) F64.lit_0_000001
  && F64.ltb (SFabs v) F64.lit_1e9.

(** The handler that owns a line, by the order of the [switch]. *)
Inductive Owner :=
  | OwnJournalJSON
  | OwnJSON
  | OwnLogrus
  | OwnNone.

Section Ownership.
Context `{GoLib} `{Siblings}.

Definition owner (st : ScannerState) (lineData : string) : Owner :=
  if (TryHandle (journalJSONEntry st) lineData).1 then OwnJournalJSON
  else if (JSON_TryHandle (jsonEntry st) lineData).1 then OwnJSON
  else
    let '(can, logrus) := Logrus_CanHandle (logrusEntry st) lineData in
    if can && (logfmt_Parse lineData logrus).1 then OwnLogrus
    else OwnNone.

(** How many of the three continuity flags are set. *)
Definition flagsSet (st : ScannerState) : nat :=
  (if lastLogrus st then 1 else 0) + (if lastJSON st then 1 else 0)
  + (if lastJournalJSON st then 1 else 0).

End Ownership.

(** ** Sample lines and states

    Concrete inputs for the examples, run with the reference library. *)

Module Sample.
Import Ref.

Definition h0 : JournalJSONHandler := emptyJournalJSONHandler opts0.

(** [opts0] with [Keep] holding the one name [a]. *)
Definition opts_keep_a : HandlerOptions :=
  {| Skip := Skip opts0;
     Keep := {["a"]};
     SortLongest := SortLongest opts0;
     SkipUnchanged := SkipUnchanged opts0;
     Truncates := Truncates opts0;
     LightBg := LightBg opts0;
     TruncateLength := TruncateLength opts0;
     TimeFormat := TimeFormat opts0;
     KeyColor := KeyColor opts0;
     ValColor := ValColor opts0;
     TimeLightBgColor := TimeLightBgColor opts0;
     TimeDarkBgColor := TimeDarkBgColor opts0;
     MsgLightBgColor := MsgLightBgColor opts0;
     MsgAbsentLightBgColor := MsgAbsentLightBgColor opts0;
     MsgDarkBgColor := MsgDarkBgColor opts0;
     MsgAbsentDarkBgColor := MsgAbsentDarkBgColor opts0;
     DebugLevelColor := DebugLevelColor opts0;
     InfoLevelColor := InfoLevelColor opts0;
     WarnLevelColor := WarnLevelColor opts0;
     ErrorLevelColor := ErrorLevelColor opts0;
     FatalLevelColor := FatalLevelColor opts0;
     UnknownLevelColor := UnknownLevelColor opts0 |}.

Definition h_keep_a : JournalJSONHandler := emptyJournalJSONHandler opts_keep_a.

(** Two journal lines: [code] keeps its value, [unit] and [_PID] change. *)
Definition line1 : string :=
  dq "{'_SOURCE_REALTIME_TIMESTAMP':'1000000','MESSAGE':'hello','PRIORITY':'6','_PID':'42','code':3,'unit':'a'}".
Definition line2 : string :=
  dq "{'_SOURCE_REALTIME_TIMESTAMP':'2000000','MESSAGE':'hello','PRIORITY':'6','_PID':'43','code':3,'unit':'b'}".

(** A line with the marker whose timestamp is a number: decoding fails. *)
Definition line_bad_timestamp : string :=
  dq "{'_SOURCE_REALTIME_TIMESTAMP':1}".

(** A line with the marker as a string value and no such key. *)
Definition line_marker_in_value : string :=
  dq "{'MESSAGE':'_SOURCE_REALTIME_TIMESTAMP'}".

(** A line for the generic-JSON handler. *)
Definition line_json : string := dq "{'msg':'hi'}".

(** A line with a whole negative number of large magnitude. *)
Definition line_negative : string :=
  dq "{'_SOURCE_REALTIME_TIMESTAMP':'1','x':-2000000000}".

(** The decoded map of [line1]. *)
Definition raw1 : gmap string JValue := default ∅ (json_Unmarshal line1).

(** The handler holding the entry of [line1], and after rendering it. *)
Definition h_line1 : JournalJSONHandler := (TryHandle (H:=lib) h0 line1).2.
Definition h_after1 : JournalJSONHandler := (Prettify (H:=lib) h_line1 false).2.

(** The dispatcher after [line1], and the handler holding [line2] then. *)
Definition st0 : ScannerState (H0:=siblings) := Scanner_init opts0.
Definition st1 : ScannerState (H0:=siblings) :=
  Scanner_line (H:=lib) opts0 st0 line1.
Definition h_line2 : JournalJSONHandler :=
  (TryHandle (H:=lib) (journalJSONEntry st1) line2).2.

(** A handler with two fields, and the two orders of ranging over them. *)
Definition h_two : JournalJSONHandler :=
  {| Opts := opts0; Level := "6"; Time := TimeUnix 1 0; Message := "m";
     Fields := {["a" := "1"; "b" := "2"]}; last := ∅ |}.
Definition range_ab : list (string * string) := [("a", "1"); ("b", "2")].
Definition range_ba : list (string * string) := [("b", "2"); ("a", "1")].

End Sample.

(** ** Further reading aids and sample inputs *)

(** The keys [UnmarshalJournalJSON] takes out of the decoded object
    before the loop over the rest. *)
Definition consumedKey (raw : gmap string JValue) (key : string) : bool :=
  String.eqb key "_SOURCE_REALTIME_TIMESTAMP"
  || (String.eqb key "MESSAGE"
      && match raw !! "MESSAGE" with Some (JString _) => true | _ => false end)
  || (String.eqb key "PRIORITY"
      && match raw !! "PRIORITY" with Some (JString _) => true | _ => false end).

(** An entry in the state [clear] leaves, fields included. *)
Definition entryCleared (h : JournalJSONHandler) : Prop :=
  Level h = "" ∧ Time h = TimeZero ∧ Message h = "" ∧ Fields h = ∅.

(** The order [joinKVs] leaves when [SortLongest] is set: by length, and
    among equal lengths byte-wise. *)
Definition byLengthThenBytes (a b : string) : Prop :=
  (String.length a < String.length b)%nat
  ∨ (String.length a = String.length b ∧ String.le a b).

(** The last byte of a string. *)
Fixpoint last_byte (s : string) : option ascii :=
  match s with
  | EmptyString => None
  | String c EmptyString => Some c
  | String _ s' => last_byte s'
  end.

Module MoreSample.
Import Ref Sample.

(** A journal line one microsecond before the epoch, with a number as
    message. *)
Definition line_before_epoch : string :=
  dq "{'_SOURCE_REALTIME_TIMESTAMP':'-1','MESSAGE':7,'code':3}".
Definition raw_before_epoch : gmap string JValue :=
  default ∅ (json_Unmarshal line_before_epoch).
Definition h_before_epoch : JournalJSONHandler :=
  (TryHandle (H:=lib) h0 line_before_epoch).2.

(** [opts0] with [Keep] holding the one name [_pid], and the entry of
    [line1] under these options. *)
Definition opts_keep_pid : HandlerOptions :=
  {| Skip := Skip opts0;
     Keep := {["_pid"]};
     SortLongest := SortLongest opts0;
     SkipUnchanged := SkipUnchanged opts0;
     Truncates := Truncates opts0;
     LightBg := LightBg opts0;
     TruncateLength := TruncateLength opts0;
     TimeFormat := TimeFormat opts0;
     KeyColor := KeyColor opts0;
     ValColor := ValColor opts0;
     TimeLightBgColor := TimeLightBgColor opts0;
     TimeDarkBgColor := TimeDarkBgColor opts0;
     MsgLightBgColor := MsgLightBgColor opts0;
     MsgAbsentLightBgColor := MsgAbsentLightBgColor opts0;
     MsgDarkBgColor := MsgDarkBgColor opts0;
     MsgAbsentDarkBgColor := MsgAbsentDarkBgColor opts0;
     DebugLevelColor := DebugLevelColor opts0;
     InfoLevelColor := InfoLevelColor opts0;
     WarnLevelColor := WarnLevelColor opts0;
     ErrorLevelColor := ErrorLevelColor opts0;
     FatalLevelColor := FatalLevelColor opts0;
     UnknownLevelColor := UnknownLevelColor opts0 |}.
Definition h_kept : JournalJSONHandler :=
  (TryHandle (H:=lib) (emptyJournalJSONHandler opts_keep_pid) line1).2.

(** The binary64 nearest to -2.9999999. *)
Definition mantissa_neg : positive := 6755399215875763.
Definition exponent_neg : Z := -51.

(** The decoded map of [line2], and the handler holding [line2] in a
    run that has seen [line1]. *)
Definition raw2 : gmap string JValue := default ∅ (json_Unmarshal line2).
Definition h_run2 : JournalJSONHandler :=
  (TryHandle (H:=lib)
     (journalJSONEntry
        (Scanner_lines (H:=lib) (H0:=siblings) opts0 [line1] (Scanner_init opts0)))
     line2).2.

(** Two lines that no handler takes. *)
Definition unhandled_lines : list string := ["@cee: ="; "plain text"].

(** The handler holding [line2] after [line1] and a line no handler
    took, and after [line1] and a generic-JSON line. *)
Definition h_after_unhandled : JournalJSONHandler :=
  (TryHandle (H:=lib)
     (journalJSONEntry (Scanner_line (H:=lib) (H0:=siblings) opts0 st1 "@cee: ="))
     (TrimPrefix line2 "@cee: ")).2.
Definition h_after_json : JournalJSONHandler :=
  (TryHandle (H:=lib)
     (journalJSONEntry
        (Scanner_line (H:=lib) (H0:=siblings) opts0
           (Scanner_line (H:=lib) opts0 st0 line1) line_json))
     (TrimPrefix line2 "@cee: ")).2.

End MoreSample.

(** * Properties *)

(** ** Field visibility *)

Section HandlerFacts.
Context `{GoLib}.

Lemma shouldShowKey_kept h key :
  size (Keep (Opts h)) ≠ 0%nat →
  key ∈ Keep (Opts h) ∨ strings_ToLower key ∈ Keep (Opts h) →
  shouldShowKey h key = true.
Proof.
  intros Hne Hin. unfold shouldShowKey.
  rewrite (bool_decide_eq_true_2 _ Hne). simpl.
  destruct Hin as [Hin|Hin]; rewrite (bool_decide_eq_true_2 _ Hin);
    by rewrite ?orb_true_r.
Qed.

Lemma shouldShowKey_not_kept h key :
  key ∉ Keep (Opts h) → strings_ToLower key ∉ Keep (Opts h) →
  shouldShowKey h key =
    negb (bool_decide (size (Skip (Opts h)) ≠ 0%nat)
          && (bool_decide (key ∈ Skip (Opts h))
              || bool_decide (strings_ToLower key ∈ Skip (Opts h))))
    && negb (HasPrefix key "_").
Proof.
  intros Hk Hl. unfold shouldShowKey.
  rewrite (bool_decide_eq_false_2 _ Hk), (bool_decide_eq_false_2 _ Hl).
  rewrite andb_false_r.
  destruct (bool_decide (size (Skip (Opts h)) ≠ 0%nat)
            && (bool_decide (key ∈ Skip (Opts h))
                || bool_decide (strings_ToLower key ∈ Skip (Opts h))));
    [done|]. simpl. by destruct (HasPrefix key "_").
Qed.

(** C1, as amended.  When [Keep] is not empty and holds neither the key
    nor its lower-case form, the field is hidden exactly when a non-empty
    [Skip] holds the key or its lower-case form, or the key starts with an
    underscore: missing from [Keep] does not by itself hide a field. *)
Theorem shouldShowKey_outside_Keep h key :
  size (Keep (Opts h)) ≠ 0%nat →
  key ∉ Keep (Opts h) →
  strings_ToLower key ∉ Keep (Opts h) →
  shouldShowKey h key = false ↔
    (size (Skip (Opts h)) ≠ 0%nat
     ∧ (key ∈ Skip (Opts h) ∨ strings_ToLower key ∈ Skip (Opts h)))
    ∨ HasPrefix key "_" = true.
Proof.
  intros _ Hk Hl. rewrite (shouldShowKey_not_kept _ _ Hk Hl).
  rewrite andb_false_iff, !negb_false_iff, andb_true_iff, orb_true_iff.
  by rewrite !bool_decide_eq_true.
Qed.

Lemma shouldShowUnchanged_true h key :
  shouldShowUnchanged h key = true ↔
    size (Keep (Opts h)) ≠ 0%nat
    ∧ (key ∈ Keep (Opts h) ∨ strings_ToLower key ∈ Keep (Opts h)).
Proof.
  unfold shouldShowUnchanged.
  repeat case_bool_decide; simpl; intuition congruence.
Qed.

Lemma UnmarshalJournalJSON_error h d h' e :
  UnmarshalJournalJSON h d = (h', Some e) → h' = h.
Proof.
  unfold UnmarshalJournalJSON. intros Hu.
  destruct (json_Unmarshal d) as [raw|]; [|by simplify_eq].
  destruct (raw !! "_SOURCE_REALTIME_TIMESTAMP") as [[]|];
    repeat (simplify_eq/=; try done; case_match).
Qed.

Lemma UnmarshalJournalJSON_last h d h' r :
  UnmarshalJournalJSON h d = (h', r) → last h' = last h ∧ Opts h' = Opts h.
Proof.
  unfold UnmarshalJournalJSON. intros Hu.
  destruct (json_Unmarshal d) as [raw|]; [|by simplify_eq].
  destruct (raw !! "_SOURCE_REALTIME_TIMESTAMP") as [[]|];
    repeat (simplify_eq/=; try done; case_match).
Qed.

Lemma TryHandle_true h d h' :
  TryHandle h d = (true, h') →
  Contains d marker = true ∧ UnmarshalJournalJSON h d = (h', None).
Proof.
  unfold TryHandle. destruct (Contains d marker); simpl; [|done].
  destruct (UnmarshalJournalJSON h d) as [h1 [e|]]; naive_solver.
Qed.

(** C2, as amended.  The last snapshot is replaced by every [clear]:
    after each render, and also when [TryHandle] finds the marker and the
    decoding fails; the snapshot then becomes the fields held before the
    call and the entry is reset.  A [TryHandle] that returns false for a
    line without the marker changes nothing, and one that returns true
    leaves the snapshot as it was. *)
Theorem snapshot_replaced_by_clear h d skipUnchanged :
  last (Prettify h skipUnchanged).2 = Fields h
  ∧ match TryHandle h d with
    | (true, h') => last h' = last h
    | (false, h') =>
        (Contains d marker = false ∧ h' = h)
        ∨ (Contains d marker = true ∧ h' = clear h)
    end.
Proof.
  split; [done|]. unfold TryHandle.
  destruct (Contains d marker); simpl; [|by left].
  destruct (UnmarshalJournalJSON h d) as [h' [e|]] eqn:Hu.
  - right. by rewrite (UnmarshalJournalJSON_error _ _ _ _ Hu).
  - by apply UnmarshalJournalJSON_last in Hu as [? _].
Qed.

Lemma takeString_lookup (raw : gmap string JValue) key :
  (takeString raw key).1 =
    match raw !! key with Some (JString s) => s | _ => "" end.
Proof. unfold takeString. by repeat case_match. Qed.

Lemma takeString_other (raw : gmap string JValue) key key' :
  key ≠ key' → (takeString raw key).2 !! key' = raw !! key'.
Proof.
  intros Hne. unfold takeString.
  repeat case_match; simpl; by rewrite ?lookup_delete_ne.
Qed.

(** The level a successful decode stores: the priority when it is a
    string, the empty string otherwise. *)
Lemma UnmarshalJournalJSON_level h d h' raw :
  json_Unmarshal d = Some raw →
  UnmarshalJournalJSON h d = (h', None) →
  Level h' = match raw !! "PRIORITY" with Some (JString s) => s | _ => "" end.
Proof.
  unfold UnmarshalJournalJSON. intros -> Hu.
  assert (∀ (r : gmap string JValue) g g',
    (let '(message, r1) := takeString r "MESSAGE" in
     let '(level, r2) := takeString r1 "PRIORITY" in
     ({| Opts := Opts g; Level := level; Time := Time g; Message := message;
         Fields := map_fold (λ key val fields, <[key := fieldString val]> fields)
                     (Fields g) r2;
         last := last g |}, @None error)) = (g', None) →
    Level g' = match r !! "PRIORITY" with Some (JString s) => s | _ => "" end)
    as Hstep.
  { intros r g g' Hg.
    destruct (takeString r "MESSAGE") as [message r1] eqn:Hm.
    destruct (takeString r1 "PRIORITY") as [level r2] eqn:Hp.
    simplify_eq/=.
    change level with (level, r2).1. rewrite <- Hp, takeString_lookup.
    change r1 with (message, r1).2. rewrite <- Hm.
    by rewrite takeString_other. }
  destruct (raw !! "_SOURCE_REALTIME_TIMESTAMP") as [ts|] eqn:Hts.
  - destruct ts; try done.
    destruct (ParseInt s); [|done].
    apply Hstep in Hu. by rewrite lookup_delete_ne in Hu.
  - by apply Hstep in Hu.
Qed.

Lemma levelString_code h :
  let code := priorityCode (Some (JString (Level h))) in
  levelString h = color_Sprint (levelColor (Opts h) code) code.
Proof.
  unfold levelString, priorityCode.
  destruct (Level h) as [|[[] [] [] [] [] [] [] []] [|? ?]]; reflexivity.
Qed.

Lemma priorityCode_level (p : option JValue) :
  priorityCode (Some (JString match p with Some (JString s) => s | _ => "" end))
  = priorityCode p.
Proof. by destruct p as [[]|]. Qed.

(** C5.  For every decoded entry the level rendered by [Prettify] is the
    four-letter code of the raw priority string, in the style of that
    code: 7 gives DEBU, 5 and 6 INFO, 4 WARN, 3 ERRO, 0 1 and 2 FATA, and
    anything else, an absent priority included, UNKN. *)
Theorem level_code_of_priority h d h' raw skipUnchanged :
  json_Unmarshal d = Some raw →
  TryHandle h d = (true, h') →
  let code := priorityCode (raw !! "PRIORITY") in
  levelString h' = color_Sprint (levelColor (Opts h') code) code
  ∧ (Prettify h' skipUnchanged).1 =
      tabwriter_Flush
        (timeString h' +:+ " |" +:+ color_Sprint (levelColor (Opts h') code) code
         +:+ "| " +:+ msgString h' +:+ String "009" " "
         +:+ Join (joinKVs h' skipUnchanged "=") (String "009" " ")).
Proof.
  intros Hraw [_ Hu]%TryHandle_true code.
  assert (levelString h' = color_Sprint (levelColor (Opts h') code) code) as Hl.
  { rewrite levelString_code, (UnmarshalJournalJSON_level _ _ _ _ Hraw Hu).
    by rewrite priorityCode_level. }
  split; [done|]. unfold Prettify, Prettify_range, prettyText. simpl.
  by rewrite Hl.
Qed.

(** Whatever the options select, both message styles are overwritten
    with high-intensity white before they are used. *)
Lemma msgColors_fixed h :
  msgColors h = (color_New [FgHiWhite], color_New [FgHiWhite]).
Proof. unfold msgColors. by destruct (LightBg (Opts h)). Qed.

Lemma TryHandle_without_key h d raw :
  Contains d marker = true →
  json_Unmarshal d = Some raw →
  raw !! "_SOURCE_REALTIME_TIMESTAMP" = None →
  (TryHandle h d).1 = true ∧ Time (TryHandle h d).2 = Time h.
Proof.
  intros Hc Hraw Hts. unfold TryHandle, UnmarshalJournalJSON.
  rewrite Hc, Hraw, Hts. simpl.
  destruct (takeString raw "MESSAGE") as [message r1].
  by destruct (takeString r1 "PRIORITY") as [level r2].
Qed.

Lemma integerFormBySpec_sound v :
  integerFormBySpec v = true →
  fieldString (JNumber v) = fmt_d (F64.to_int v).
Proof.
  unfold integerFormBySpec, fieldString. intros [-> Habs]%andb_true_iff.
  simpl. assert (F64.ltb v F64.lit_1e9 = true) as ->; [|done].
  destruct v as [?|[]| |[] ? ?]; try done.
Qed.

End HandlerFacts.

(** ** Ordering of the rendered pairs *)

Lemma sort_Strings_Permutation l : sort_Strings l ≡ₚ l.
Proof. apply merge_sort_Permutation. Qed.

(** Two lists with the same elements sort to the same list: the order is
    total and antisymmetric, so the sorted arrangement is unique. *)
Lemma sort_Strings_unique l1 l2 :
  l1 ≡ₚ l2 → sort_Strings l1 = sort_Strings l2.
Proof.
  intros Hp. apply (Sorted_unique String.le).
  - apply (Sorted_merge_sort String.le).
  - apply (Sorted_merge_sort String.le).
  - by rewrite !sort_Strings_Permutation.
Qed.

Lemma stable_insert_Permutation less x l : stable_insert less x l ≡ₚ x :: l.
Proof.
  induction l as [|y l IH]; simpl; [done|].
  destruct (less x y); [done|]. by rewrite IH, Permutation_swap.
Qed.

Lemma sort_Stable_Permutation less l : sort_Stable less l ≡ₚ l.
Proof.
  unfold sort_Stable.
  assert (∀ acc, foldl (λ sorted x, stable_insert less x sorted) acc l
                 ≡ₚ l ++ acc) as Hacc.
  { induction l as [|x l IH]; intros acc; simpl; [done|].
    by rewrite IH, stable_insert_Permutation, Permutation_middle. }
  by rewrite Hacc, app_nil_r.
Qed.

Section JoinFacts.
Context `{GoLib}.

(** The loop of [joinKVs] is a filter followed by a map. *)
Lemma joinKVs_loop h skipUnchanged sep range :
  foldl (λ kv p, if emitsKV h skipUnchanged p
                 then kv ++ [renderKV h sep p] else kv) [] range
  = renderKV h sep <$> filter (λ p, emitsKV h skipUnchanged p = true) range.
Proof.
  assert (∀ acc,
    foldl (λ kv p, if emitsKV h skipUnchanged p
                   then kv ++ [renderKV h sep p] else kv) acc range
    = acc ++ (renderKV h sep <$> filter (λ p, emitsKV h skipUnchanged p = true) range))
    as Hacc.
  { induction range as [|p range IH]; intros acc; simpl.
    - by rewrite app_nil_r.
    - rewrite IH, filter_cons.
      destruct (emitsKV h skipUnchanged p) eqn:He.
      + rewrite decide_True by done. by rewrite <- app_assoc.
      + by rewrite decide_False by done. }
  apply Hacc.
Qed.

Lemma joinKVs_range_Permutation range h skipUnchanged sep :
  joinKVs_range range h skipUnchanged sep
  ≡ₚ renderKV h sep <$> filter (λ p, emitsKV h skipUnchanged p = true) range.
Proof.
  unfold joinKVs_range. rewrite joinKVs_loop.
  destruct (SortLongest (Opts h));
    by rewrite ?sort_Stable_Permutation, sort_Strings_Permutation.
Qed.

Lemma joinKVs_range_order range1 range2 h skipUnchanged sep :
  range1 ≡ₚ range2 →
  joinKVs_range range1 h skipUnchanged sep
  = joinKVs_range range2 h skipUnchanged sep.
Proof.
  intros Hp. unfold joinKVs_range. rewrite !joinKVs_loop.
  by rewrite (sort_Strings_unique _ _ (fmap_Permutation _ _ _
                (filter_Permutation _ _ _ Hp))).
Qed.

(** C10.  For a fixed handler state, fixed options and the same
    [skipUnchanged], [Prettify] returns the same bytes and leaves the same
    state whatever the order in which the fields are ranged over: the
    sort puts the pairs in one order. *)
Theorem Prettify_order_independent h skipUnchanged range1 range2 :
  range1 ≡ₚ map_to_list (Fields h) →
  range2 ≡ₚ map_to_list (Fields h) →
  Prettify_range range1 h skipUnchanged = Prettify_range range2 h skipUnchanged
  ∧ Prettify_range range1 h skipUnchanged = Prettify h skipUnchanged.
Proof.
  intros H1 H2. unfold Prettify, Prettify_range, prettyText.
  rewrite (joinKVs_range_order range1 (map_to_list (Fields h))) by done.
  by rewrite (joinKVs_range_order range2 (map_to_list (Fields h))) by done.
Qed.

Lemma shownKeys_elem h skipUnchanged k :
  k ∈ shownKeys h skipUnchanged ↔
    ∃ v, Fields h !! k = Some v ∧ emitsKV h skipUnchanged (k, v) = true.
Proof.
  unfold shownKeys. rewrite list_elem_of_fmap. split.
  - intros [[k' v] [-> [He Hin%elem_of_map_to_list]%list_elem_of_filter]].
    by exists v.
  - intros [v [Hk He]]. exists (k, v). split; [done|].
    apply list_elem_of_filter. split; [done|]. by apply elem_of_map_to_list.
Qed.

(** What [joinKVs] returns: the rendered pair of every field the loop
    does not pass over, and nothing else. *)
Lemma joinKVs_elem h skipUnchanged sep s :
  s ∈ joinKVs h skipUnchanged sep ↔
    ∃ k v, Fields h !! k = Some v ∧ emitsKV h skipUnchanged (k, v) = true
           ∧ s = renderKV h sep (k, v).
Proof.
  unfold joinKVs. rewrite joinKVs_range_Permutation, list_elem_of_fmap. split.
  - intros [[k v] [-> [He Hin%elem_of_map_to_list]%list_elem_of_filter]].
    by exists k, v.
  - intros (k & v & Hk & He & ->). exists (k, v). split; [done|].
    apply list_elem_of_filter. split; [done|]. by apply elem_of_map_to_list.
Qed.

Lemma emitsKV_unchanged h k v :
  last h !! k = Some v → shouldShowUnchanged h k = false →
  emitsKV h true (k, v) = false.
Proof.
  intros Hl Hu. unfold emitsKV. rewrite Hl, Hu, String.eqb_refl. simpl.
  by destruct (shouldShowKey h k).
Qed.

Lemma emitsKV_changed h skipUnchanged k v :
  last h !! k ≠ Some v → shouldShowKey h k = true →
  emitsKV h skipUnchanged (k, v) = true.
Proof.
  intros Hl Hs. unfold emitsKV. rewrite Hs. simpl.
  destruct (last h !! k) as [lastV|]; [|by rewrite andb_false_r].
  destruct (String.eqb_spec lastV v) as [->|]; [done|].
  by rewrite andb_false_r.
Qed.

Lemma emitsKV_hidden h skipUnchanged k v :
  shouldShowKey h k = false → emitsKV h skipUnchanged (k, v) = false.
Proof. intros Hs. unfold emitsKV. by rewrite Hs. Qed.

(** The two guards of the loop of [joinKVs], with [skipUnchanged] set and
    unset. *)
Lemma emitsKV_true_skip h k v :
  emitsKV h true (k, v) = true ↔
    shouldShowKey h k = true
    ∧ (last h !! k = Some v → shouldShowUnchanged h k = true).
Proof.
  unfold emitsKV. destruct (shouldShowKey h k); simpl;
    [|split; [done|by intros [? _]]].
  destruct (last h !! k) as [lastV|];
    [|split; [intros _; split; [done|by intros ?]|done]].
  destruct (String.eqb_spec lastV v) as [->|Hne]; simpl.
  - destruct (shouldShowUnchanged h k); simpl; [tauto|].
    split; [done|]. intros [_ Hu]. by specialize (Hu eq_refl).
  - split; [|done]. intros _. split; [done|]. intros ?. by simplify_eq.
Qed.

Lemma emitsKV_true_noskip h k v :
  emitsKV h false (k, v) = true ↔ shouldShowKey h k = true.
Proof. unfold emitsKV. by destruct (shouldShowKey h k). Qed.

(** The pairs [joinKVs] returns are, up to their order, the rendered
    pairs of the fields that satisfy any condition equivalent to the
    guards of its loop. *)
Lemma joinKVs_Permutation_filter h skipUnchanged sep
    (P : string * string → Prop) `{!∀ p, Decision (P p)} :
  (∀ p, emitsKV h skipUnchanged p = true ↔ P p) →
  joinKVs h skipUnchanged sep
  ≡ₚ renderKV h sep <$> filter P (map_to_list (Fields h)).
Proof.
  intros HP. unfold joinKVs. rewrite joinKVs_range_Permutation.
  by rewrite (list_filter_iff (λ p, emitsKV h skipUnchanged p = true) P _ HP).
Qed.

End JoinFacts.

(** ** Lines of the input *)

Lemma string_app_cons c (a b : string) : String c a +:+ b = String c (a +:+ b).
Proof. reflexivity. Qed.

Lemma string_app_nil_l (a : string) : "" +:+ a = a.
Proof. reflexivity. Qed.

Lemma string_app_assoc (a b c : string) : (a +:+ b) +:+ c = a +:+ (b +:+ c).
Proof.
  induction a as [|x a IH]; [done|]. by rewrite !string_app_cons, IH.
Qed.

Lemma string_app_nil_r (a : string) : a +:+ "" = a.
Proof. induction a as [|x a IH]; [done|]. by rewrite string_app_cons, IH. Qed.

Lemma ScanLines_from_line cur l rest :
  free_of "010" l = true →
  ScanLines_from cur (l +:+ eol +:+ rest)
  = dropCR (cur +:+ l) :: ScanLines_from "" rest.
Proof.
  revert cur. induction l as [|c l IH]; intros cur Hfree.
  - by rewrite string_app_nil_r.
  - simpl in Hfree. apply andb_true_iff in Hfree as [Hc Hl].
    apply negb_true_iff in Hc. rewrite string_app_cons. simpl.
    rewrite Hc, IH by done.
    by rewrite string_app_assoc.
Qed.

Lemma ScanLines_from_last cur l :
  free_of "010" l = true →
  ScanLines_from cur l
  = if String.eqb (cur +:+ l) "" then [] else [dropCR (cur +:+ l)].
Proof.
  revert cur. induction l as [|c l IH]; intros cur Hfree.
  - by rewrite string_app_nil_r.
  - simpl in Hfree. apply andb_true_iff in Hfree as [Hc Hl].
    apply negb_true_iff in Hc. simpl. rewrite Hc, IH by done.
    by rewrite string_app_assoc.
Qed.

Lemma string_take_app (l r : string) : string_take (String.length l) (l +:+ r) = l.
Proof.
  induction l as [|c l IH]; [by destruct r|].
  rewrite string_app_cons. simpl. by rewrite IH.
Qed.

Lemma string_get_app (l : string) c r :
  String.get (String.length l) (l +:+ String c r) = Some c.
Proof. induction l as [|x l IH]; [done|]. rewrite string_app_cons. apply IH. Qed.

Lemma string_length_snoc (l : string) c :
  String.length (l +:+ String c "") = S (String.length l).
Proof.
  induction l as [|x l IH]; [done|]. rewrite string_app_cons. simpl.
  by rewrite IH.
Qed.

Lemma dropCR_CR l : dropCR (l +:+ String "013" "") = l.
Proof.
  unfold dropCR. rewrite string_length_snoc.
  replace (S (String.length l) - 1)%nat with (String.length l) by lia.
  rewrite string_get_app, string_take_app.
  rewrite bool_decide_eq_true_2 by lia. by rewrite bool_decide_eq_true_2.
Qed.

Lemma free_of_snoc c (l : string) c' :
  free_of c l = true → Ascii.eqb c' c = false →
  free_of c (l +:+ String c' "") = true.
Proof.
  intros Hl Hc. induction l as [|x l IH].
  - simpl. by rewrite Hc.
  - rewrite string_app_cons. simpl in *.
    apply andb_true_iff in Hl as [-> Hl]. by rewrite IH.
Qed.

(** A line comes out of [ScanLines] the same whether a newline, a
    carriage return and a newline, or the end of the input ends it. *)
Lemma ScanLines_terminator l :
  free_of "010" l = true →
  ScanLines (l +:+ eol) = [dropCR l]
  ∧ ScanLines (l +:+ String "013" "" +:+ eol) = [l]
  ∧ (l ≠ "" → ScanLines l = [dropCR l]).
Proof.
  intros Hfree. unfold ScanLines. split_and!.
  - by rewrite <- (string_app_nil_r eol), ScanLines_from_line.
  - rewrite <- (string_app_nil_r eol), <- string_app_assoc.
    rewrite ScanLines_from_line by (by apply free_of_snoc).
    by rewrite string_app_nil_l, dropCR_CR.
  - intros Hne. rewrite ScanLines_from_last by done.
    rewrite string_app_nil_l. by destruct (String.eqb_spec l "").
Qed.

(** ** The dispatcher *)

Section DispatcherFacts.
Context `{GoLib} `{Siblings}.

(** C3, as amended.  A line rendered by a handler sets the continuity
    flag of that handler and leaves the other two flags as they were; the
    three flags are cleared, together, by a line no handler takes. *)
Theorem flags_after_line opts st l :
  let st' := Scanner_line opts st l in
  match owner st (TrimPrefix l "@cee: ") with
  | OwnJournalJSON =>
      lastJournalJSON st' = true
      ∧ lastJSON st' = lastJSON st ∧ lastLogrus st' = lastLogrus st
  | OwnJSON =>
      lastJSON st' = true
      ∧ lastJournalJSON st' = lastJournalJSON st ∧ lastLogrus st' = lastLogrus st
  | OwnLogrus =>
      lastLogrus st' = true
      ∧ lastJournalJSON st' = lastJournalJSON st ∧ lastJSON st' = lastJSON st
  | OwnNone =>
      lastJournalJSON st' = false ∧ lastJSON st' = false ∧ lastLogrus st' = false
  end.
Proof.
  unfold Scanner_line, Scanner_switch, owner.
  destruct (TryHandle _ _) as [[] journal]; simpl; [done|].
  destruct (JSON_TryHandle _ _) as [[] json]; simpl.
  { by destruct (JSON_Prettify _ _). }
  destruct (Logrus_CanHandle _ _) as [[] logrus]; simpl; [|done].
  destruct (logfmt_Parse _ _) as [[] logrus']; simpl; [|done].
  by destruct (Logrus_Prettify _ _).
Qed.

Lemma Scanner_line_dst opts st l :
  dst (Scanner_line opts st l)
  = dst st +:+ (Scanner_switch opts st (TrimPrefix l "@cee: ")).2 +:+ eol.
Proof.
  unfold Scanner_line. by destruct (Scanner_switch _ _ _).
Qed.

Lemma Scanner_switch_passthrough opts st lineData :
  owner st lineData = OwnNone →
  (Scanner_switch opts st lineData).2 = lineData.
Proof.
  unfold Scanner_switch, owner.
  destruct (TryHandle _ _) as [[] journal]; simpl; [done|].
  destruct (JSON_TryHandle _ _) as [[] json]; simpl; [done|].
  destruct (Logrus_CanHandle _ _) as [[] logrus]; simpl; [|done].
  by destruct (logfmt_Parse _ _) as [[] logrus'].
Qed.

(** Every line of a run adds one output, and every output ends with the
    newline the loop writes after it. *)
Lemma Scanner_lines_dst opts lines st :
  dst (Scanner_lines opts lines st)
    = dst st +:+ flatten (Scanner_outputs opts lines st)
  ∧ length (Scanner_outputs opts lines st) = length lines
  ∧ Forall (λ out, ∃ written, out = written +:+ eol)
      (Scanner_outputs opts lines st).
Proof.
  revert st. induction lines as [|l lines IH]; intros st.
  - split_and!; [|done|by constructor]. simpl. by rewrite string_app_nil_r.
  - destruct (IH (Scanner_line opts st l)) as (Hdst & Hlen & Hall).
    split_and!.
    + change (Scanner_lines opts (l :: lines) st)
        with (Scanner_lines opts lines (Scanner_line opts st l)).
      rewrite Hdst, Scanner_line_dst. simpl.
      by rewrite !string_app_assoc.
    + simpl. by rewrite Hlen.
    + constructor; [by eexists|done].
Qed.

(** C7, as amended.  Every line adds to the output what its case of the
    switch writes, followed by one newline.  For a line that none of the
    three decoders takes, what is written is the line without a leading
    ["@cee: "], which is the line itself when it has no such prefix. *)
Theorem line_written_with_one_newline opts st l :
  dst (Scanner_line opts st l)
    = dst st +:+ (Scanner_switch opts st (TrimPrefix l "@cee: ")).2 +:+ eol
  ∧ (owner st (TrimPrefix l "@cee: ") = OwnNone →
     dst (Scanner_line opts st l) = dst st +:+ TrimPrefix l "@cee: " +:+ eol)
  ∧ (HasPrefix l "@cee: " = false → TrimPrefix l "@cee: " = l).
Proof.
  split_and!.
  - apply Scanner_line_dst.
  - intros Ho. by rewrite Scanner_line_dst, Scanner_switch_passthrough.
  - intros Hp. unfold TrimPrefix. by rewrite Hp.
Qed.

Lemma Scanner_line_journal opts st l h1 :
  TryHandle (journalJSONEntry st) (TrimPrefix l "@cee: ") = (true, h1) →
  journalJSONEntry (Scanner_line opts st l) = clear h1
  ∧ lastJournalJSON (Scanner_line opts st l) = true
  ∧ dst (Scanner_line opts st l)
    = dst st +:+ (Prettify h1 (SkipUnchanged opts && lastJournalJSON st)).1
      +:+ eol.
Proof.
  intros Ht. unfold Scanner_line, Scanner_switch. by rewrite Ht.
Qed.

(** C4, as amended.  Take two consecutive lines that the Journal-JSON
    handler decodes, with [SkipUnchanged] on.  The second line is written
    as [Prettify] renders it with [skipUnchanged] set, and the pairs in
    that rendering, the list [joinKVs] returns, are up to their order the
    pairs of exactly those fields of the second line whose key passes
    [shouldShowKey] and that either did not have the same string value in
    the first line or have their name or lower-case name in a non-empty
    [Keep].  So every pair rendered comes from such a field: a field with
    the value it had in the first line and outside [Keep] gives no pair,
    nor does a key that fails [shouldShowKey], whatever its value; and a
    field whose value differs from the first line's, or that the first
    line did not have, gives its pair provided its key passes
    [shouldShowKey]. *)
Theorem unchanged_fields_skipped opts st l1 l2 h1 h2 :
  SkipUnchanged opts = true →
  TryHandle (journalJSONEntry st) (TrimPrefix l1 "@cee: ") = (true, h1) →
  let st1 := Scanner_line opts st l1 in
  TryHandle (journalJSONEntry st1) (TrimPrefix l2 "@cee: ") = (true, h2) →
  dst (Scanner_line opts st1 l2) = dst st1 +:+ (Prettify h2 true).1 +:+ eol
  ∧ (Prettify h2 true).1
    = tabwriter_Flush
        (timeString h2 +:+ " |" +:+ levelString h2 +:+ "| " +:+ msgString h2
         +:+ String "009" " "
         +:+ Join (joinKVs h2 true "=") (String "009" " "))
  ∧ joinKVs h2 true "="
    ≡ₚ renderKV h2 "=" <$>
        filter (λ p, shouldShowKey h2 p.1 = true
                     ∧ (Fields h1 !! p.1 = Some p.2 →
                        size (Keep (Opts h2)) ≠ 0%nat
                        ∧ (p.1 ∈ Keep (Opts h2)
                           ∨ strings_ToLower p.1 ∈ Keep (Opts h2))))
          (map_to_list (Fields h2))
  ∧ (∀ s, s ∈ joinKVs h2 true "=" →
       ∃ k v, Fields h2 !! k = Some v
              ∧ s = renderKV h2 "=" (k, v)
              ∧ shouldShowKey h2 k = true
              ∧ (Fields h1 !! k = Some v →
                 size (Keep (Opts h2)) ≠ 0%nat
                 ∧ (k ∈ Keep (Opts h2) ∨ strings_ToLower k ∈ Keep (Opts h2))))
  ∧ (∀ k v, Fields h2 !! k = Some v →
       Fields h1 !! k ≠ Some v → shouldShowKey h2 k = true →
       renderKV h2 "=" (k, v) ∈ joinKVs h2 true "=").
Proof.
  intros Hskip Ht1 st1 Ht2.
  destruct (Scanner_line_journal opts st l1 h1 Ht1) as (Hj & Hflag & _).
  destruct (Scanner_line_journal opts st1 l2 h2 Ht2) as (_ & _ & Hdst).
  fold st1 in Hj, Hflag. rewrite Hflag, Hskip in Hdst. split; [done|].
  split; [done|].
  assert (last h2 = Fields h1) as Hlast.
  { apply TryHandle_true in Ht2 as [_ Hu].
    apply UnmarshalJournalJSON_last in Hu as [-> _]. by rewrite Hj. }
  assert (∀ k v, emitsKV h2 true (k, v) = true ↔
            shouldShowKey h2 k = true
            ∧ (Fields h1 !! k = Some v →
               size (Keep (Opts h2)) ≠ 0%nat
               ∧ (k ∈ Keep (Opts h2) ∨ strings_ToLower k ∈ Keep (Opts h2))))
    as Hguard.
  { intros k v.
    by rewrite emitsKV_true_skip, Hlast, shouldShowUnchanged_true. }
  split_and!.
  - apply joinKVs_Permutation_filter. intros [k v]. apply Hguard.
  - intros s (k & v & Hk & He & ->)%joinKVs_elem.
    apply Hguard in He as [Hshow Hkeep]. by exists k, v.
  - intros k v Hk Hdiff Hshow. apply joinKVs_elem. exists k, v.
    split_and!; [done| |done]. apply Hguard. split; [done|]. by intros ?.
Qed.

End DispatcherFacts.

(** ** The statements on concrete lines *)

Section Examples.
Import Sample.

(** C1 fails as stated.  With [Keep] holding only [a] and an empty
    [Skip], the key [b] is in [Keep] under neither spelling, and
    [shouldShowKey] shows it. *)
Lemma keep_miss_still_shown :
  size (Keep (Opts h_keep_a)) ≠ 0%nat
  ∧ ("b" ∉ Keep (Opts h_keep_a))
  ∧ (strings_ToLower (GoLib:=Ref.lib) "b" ∉ Keep (Opts h_keep_a))
  ∧ shouldShowKey (H:=Ref.lib) h_keep_a "b" = true.
Proof.
  split_and!; [by vm_compute| | |by vm_compute];
    refine (bool_decide_eq_false_1 _ _); by vm_compute.
Qed.

(** The amended C1 at the key [_PID], outside the same [Keep]: hidden,
    by the underscore. *)
Lemma shouldShowKey_outside_Keep_witness :
  shouldShowKey (H:=Ref.lib) h_keep_a "_PID" = false ↔
    (size (Skip (Opts h_keep_a)) ≠ 0%nat
     ∧ (("_PID" ∈ Skip (Opts h_keep_a))
        ∨ (strings_ToLower (GoLib:=Ref.lib) "_PID" ∈ Skip (Opts h_keep_a))))
    ∨ HasPrefix "_PID" "_" = true.
Proof.
  apply (shouldShowKey_outside_Keep (H:=Ref.lib) h_keep_a "_PID").
  - by vm_compute.
  - refine (bool_decide_eq_false_1 _ _). by vm_compute.
  - refine (bool_decide_eq_false_1 _ _). by vm_compute.
Defined.

(** C2 fails as stated.  After [line1] was rendered the snapshot holds
    its fields; [TryHandle] on a line with the marker and a numeric
    timestamp returns false and leaves an empty snapshot. *)
Lemma failed_decode_replaces_snapshot :
  last h_after1 !! "code" = Some "3"
  ∧ (TryHandle (H:=Ref.lib) h_after1 line_bad_timestamp).1 = false
  ∧ last (TryHandle (H:=Ref.lib) h_after1 line_bad_timestamp).2 = ∅
  ∧ last (TryHandle (H:=Ref.lib) h_after1 line_bad_timestamp).2 ≠ last h_after1.
Proof.
  split_and!; [by vm_compute..|].
  intros Heq. apply (f_equal (λ m : gmap string string, m !! "code")) in Heq.
  by vm_compute in Heq.
Qed.

(** C3 fails as stated.  A generic-JSON line and then a journal line:
    the second is rendered by the Journal-JSON handler, and afterwards
    both [lastJSON] and [lastJournalJSON] are set. *)
Lemma two_flags_set :
  let sta := Scanner_line (H:=Ref.lib) (H0:=Ref.siblings) Ref.opts0 st0 line_json in
  let stb := Scanner_line (H:=Ref.lib) Ref.opts0 sta line1 in
  owner (H:=Ref.lib) st0 line_json = OwnJSON
  ∧ owner (H:=Ref.lib) sta line1 = OwnJournalJSON
  ∧ lastJournalJSON stb = true
  ∧ lastJSON stb = true
  ∧ flagsSet stb = 2%nat.
Proof. by vm_compute. Qed.

(** C4 fails as stated.  [line1] and [line2] are both decoded by the
    Journal-JSON handler; [_PID] changes from 42 to 43 and still gives no
    pair: the one pair rendered for [line2] is that of [unit], and [_PID]
    is not in the bytes written. *)
Lemma changed_underscore_field_not_rendered :
  (TryHandle (H:=Ref.lib) (journalJSONEntry st0) line1).1 = true
  ∧ (TryHandle (H:=Ref.lib) (journalJSONEntry st1) line2).1 = true
  ∧ SkipUnchanged Ref.opts0 && lastJournalJSON st1 = true
  ∧ last h_line2 !! "_PID" = Some (Ref.dq "'42'")
  ∧ Fields h_line2 !! "_PID" = Some (Ref.dq "'43'")
  ∧ ("_PID" ∉ shownKeys (H:=Ref.lib) h_line2 true)
  ∧ joinKVs (H:=Ref.lib) h_line2 true "="
    = [renderKV (H:=Ref.lib) h_line2 "=" ("unit", Ref.dq "'b'")]
  ∧ (renderKV (H:=Ref.lib) h_line2 "=" ("_PID", Ref.dq "'43'")
     ∉ joinKVs (H:=Ref.lib) h_line2 true "=")
  ∧ Contains
      (Scanner (H:=Ref.lib) (H0:=Ref.siblings) (line1 +:+ eol +:+ line2) Ref.opts0).1
      "_PID" = false
  ∧ (Scanner (H:=Ref.lib) (H0:=Ref.siblings) (line1 +:+ eol +:+ line2) Ref.opts0).2
    = None.
Proof.
  split_and!; try by vm_compute.
  - refine (bool_decide_eq_false_1 _ _). by vm_compute.
  - refine (bool_decide_eq_false_1 _ _). by vm_compute.
Qed.

(** The amended C4 on [line1] and [line2]: [code] has the value it had
    and [_PID] is hidden, so the pairs rendered for [line2] are the one of
    [unit], which changed. *)
Lemma unchanged_fields_skipped_witness :
  joinKVs (H:=Ref.lib) h_line2 true "="
  ≡ₚ [renderKV (H:=Ref.lib) h_line2 "=" ("unit", Ref.dq "'b'")]
  ∧ (renderKV (H:=Ref.lib) h_line2 "=" ("unit", Ref.dq "'b'")
     ∈ joinKVs (H:=Ref.lib) h_line2 true "=").
Proof.
  assert (TryHandle (H:=Ref.lib) (journalJSONEntry st0) (TrimPrefix line1 "@cee: ")
          = (true, h_line1)) as H1 by (vm_compute; reflexivity).
  assert (TryHandle (H:=Ref.lib)
            (journalJSONEntry (Scanner_line (H:=Ref.lib) Ref.opts0 st0 line1))
            (TrimPrefix line2 "@cee: ")
          = (true, h_line2)) as H2 by (vm_compute; reflexivity).
  destruct (unchanged_fields_skipped (H:=Ref.lib) (H0:=Ref.siblings) Ref.opts0 st0
              line1 line2 h_line1 h_line2 eq_refl H1 H2)
    as (_ & _ & Hperm & _ & Hdiff).
  split.
  - etrans; [exact Hperm|]. vm_compute. reflexivity.
  - apply Hdiff; [vm_compute; reflexivity| |vm_compute; reflexivity].
    refine (bool_decide_eq_false_1 _ _). vm_compute; reflexivity.
Defined.

(** C5 on [line1], whose priority is 6: the level is INFO. *)
Lemma level_code_of_priority_witness :
  priorityCode (raw1 !! "PRIORITY") = "INFO"
  ∧ levelString (H:=Ref.lib) h_line1
    = color_Sprint (GoLib:=Ref.lib)
        (levelColor (Opts h_line1) (priorityCode (raw1 !! "PRIORITY")))
        (priorityCode (raw1 !! "PRIORITY")).
Proof.
  assert (json_Unmarshal (GoLib:=Ref.lib) line1 = Some raw1) as Hraw
    by (vm_compute; reflexivity).
  assert (TryHandle (H:=Ref.lib) h0 line1 = (true, h_line1)) as Ht
    by (vm_compute; reflexivity).
  split; [vm_compute; reflexivity|].
  exact (proj1 (level_code_of_priority (H:=Ref.lib) h0 line1 h_line1 raw1 false
                  Hraw Ht)).
Defined.

(** C6, on the code.  The number -2000000000 has no fractional part and
    is below 1e9, so the handler stores it in integer form, although its
    magnitude is not below 1e9; the general format would give -2e+09. *)
Theorem negative_large_number_in_integer_form :
  (∀ L : GoLib,
     fieldString (H:=L) (JNumber (F64.of_Z (-2000000000))) = "-2000000000")
  ∧ integerFormBySpec (F64.of_Z (-2000000000)) = false
  ∧ Ref.fmt_g (F64.of_Z (-2000000000)) = "-2e+09"
  ∧ (TryHandle (H:=Ref.lib) h0 line_negative).1 = true
  ∧ Fields (TryHandle (H:=Ref.lib) h0 line_negative).2 !! "x" = Some "-2000000000".
Proof. split_and!; [intros L|..]; vm_compute; reflexivity. Qed.

(** C8, on the code.  Both message styles are high-intensity white
    whatever the options select.  For [line1] under [Ref.opts0], a dark
    background with cyan for the message, the message is rendered in
    white and not in the selected style. *)
Theorem message_styles_overwritten :
  (∀ h : JournalJSONHandler,
     msgColors h = (color_New [FgHiWhite], color_New [FgHiWhite]))
  ∧ selectedMsgColors (Opts h_line1) = (color_New [36], color_New [35])
  ∧ msgString (H:=Ref.lib) h_line1 = Ref.Sprint (color_New [FgHiWhite]) "hello"
  ∧ msgString (H:=Ref.lib) h_line1
    ≠ Ref.Sprint (selectedMsgColors (Opts h_line1)).1 "hello".
Proof.
  split_and!; [apply msgColors_fixed|vm_compute; reflexivity..|].
  refine (bool_decide_eq_false_1 _ _). vm_compute; reflexivity.
Qed.

(** C9.  Some line is accepted although its object has no key
    [_SOURCE_REALTIME_TIMESTAMP]: the line holds the marker bytes as a
    string value, it decodes as an object, [TryHandle] returns true and
    the time of the entry stays the zero value.  The same holds under
    every decoder for every line with the marker bytes and no such key. *)
Theorem marker_in_value_is_accepted :
  ∃ d : string,
    Contains d marker = true
    ∧ (∃ raw, json_Unmarshal (GoLib:=Ref.lib) d = Some raw
              ∧ raw !! "_SOURCE_REALTIME_TIMESTAMP" = None)
    ∧ (TryHandle (H:=Ref.lib) h0 d).1 = true
    ∧ Time (TryHandle (H:=Ref.lib) h0 d).2 = TimeZero
    ∧ ∀ (L : GoLib) (h : JournalJSONHandler) (raw : gmap string JValue),
        json_Unmarshal (GoLib:=L) d = Some raw →
        raw !! "_SOURCE_REALTIME_TIMESTAMP" = None →
        (TryHandle (H:=L) h d).1 = true
        ∧ Time (TryHandle (H:=L) h d).2 = Time h.
Proof.
  exists line_marker_in_value.
  assert (Contains line_marker_in_value marker = true) as Hc
    by (vm_compute; reflexivity).
  split_and!; [done|..|by intros L h raw; apply TryHandle_without_key];
    [|vm_compute; reflexivity..].
  exists (default ∅ (Ref.json_Unmarshal line_marker_in_value)).
  split; vm_compute; reflexivity.
Qed.

(** C10 on a handler with the fields [a] and [b], ranged over in the
    two possible orders. *)
Lemma Prettify_order_independent_witness :
  Prettify_range (H:=Ref.lib) range_ab h_two false
  = Prettify_range (H:=Ref.lib) range_ba h_two false
  ∧ Prettify_range (H:=Ref.lib) range_ab h_two false = Prettify (H:=Ref.lib) h_two false.
Proof.
  apply (Prettify_order_independent (H:=Ref.lib) h_two false range_ab range_ba).
  - vm_compute. first [reflexivity | apply perm_swap].
  - vm_compute. first [reflexivity | apply perm_swap].
Defined.

(** C7 fails as stated.  The line [@cee: =] is taken by none of the
    three decoders, and what is written is [=] and a newline: the prefix
    is gone. *)
Lemma prefixed_line_not_written_unmodified :
  owner (H:=Ref.lib) st0 (TrimPrefix "@cee: =" "@cee: ") = OwnNone
  ∧ Scanner (H:=Ref.lib) (H0:=Ref.siblings) "@cee: =" Ref.opts0
    = ("=" +:+ eol, None)
  ∧ (Scanner (H:=Ref.lib) (H0:=Ref.siblings) "@cee: =" Ref.opts0).1
    ≠ "@cee: =" +:+ eol.
Proof.
  split_and!; [vm_compute; reflexivity..|].
  refine (bool_decide_eq_false_1 _ _). vm_compute; reflexivity.
Qed.

End Examples.
(** * Further properties of the handler and the dispatcher *)

(** ** Decoding *)

Lemma time_Unix_micros (m : Z) :
  time_Unix (Z.quot m 1000000) (Z.rem m 1000000 * 1000)
  = TimeUnix (m `div` 1000000) (m `mod` 1000000 * 1000)
  ∧ 0 <= m `mod` 1000000 * 1000 < 1000000000.
Proof.
  split; [|pose proof (Z.mod_pos_bound m 1000000); lia].
  pose proof (Z.quot_rem' m 1000000) as Hqr.
  pose proof (Z.rem_bound_abs m 1000000 ltac:(lia)) as Hb.
  set (q := Z.quot m 1000000) in *. set (r := Z.rem m 1000000) in *.
  assert (- 1000000 < r < 1000000) as Hr by lia.
  unfold time_Unix.
  destruct (Z.ltb_spec (r * 1000) 0) as [Hneg|Hpos]; simpl.
  - assert (Z.quot (r * 1000) 1000000000 = 0) as ->.
    { apply Z.quot_small_iff; lia. }
    rewrite Z.add_0_r, Z.mul_0_l, Z.sub_0_r.
    destruct (Z.ltb_spec (r * 1000) 0); [|lia].
    assert (m `div` 1000000 = q - 1 ∧ m `mod` 1000000 = r + 1000000) as [-> ->].
    { symmetry in Hqr.
      destruct (Z.div_mod_unique 1000000 (m `div` 1000000) (q - 1)
                  (m `mod` 1000000) (r + 1000000)) as [??]; try lia.
      - left. apply Z.mod_pos_bound. lia.
      - pose proof (Z.div_mod m 1000000 ltac:(lia)). lia. }
    f_equal; lia.
  - destruct (Z.leb_spec 1000000000 (r * 1000)); [lia|].
    assert (m `div` 1000000 = q ∧ m `mod` 1000000 = r) as [-> ->]; [|done].
    destruct (Z.div_mod_unique 1000000 (m `div` 1000000) q
                (m `mod` 1000000) r) as [??]; try lia.
    + left. apply Z.mod_pos_bound. lia.
    + pose proof (Z.div_mod m 1000000 ltac:(lia)). lia.
Qed.

Section MoreHandlerFacts.
Context {L : GoLib}.

Lemma UnmarshalJournalJSON_time h d h' raw s m :
  json_Unmarshal d = Some raw →
  raw !! "_SOURCE_REALTIME_TIMESTAMP" = Some (JString s) →
  ParseInt s = Some m →
  UnmarshalJournalJSON h d = (h', None) →
  Time h' = TimeUnix (m `div` 1000000) (m `mod` 1000000 * 1000).
Proof.
  unfold UnmarshalJournalJSON. intros -> -> -> Hu.
  destruct (takeString _ "MESSAGE") as [message r1].
  destruct (takeString r1 "PRIORITY") as [level r2].
  simplify_eq/=. apply time_Unix_micros.
Qed.


Lemma Fields_fold_lookup (F : gmap string string) (raw : gmap string JValue) k :
  map_fold (λ key val fields, <[key := fieldString val]> fields) F raw !! k
  = match raw !! k with
    | Some v => Some (fieldString v)
    | None => F !! k
    end.
Proof.
  revert k.
  apply (map_fold_weak_ind
    (λ (r : gmap string string) (m : gmap string JValue),
       ∀ k, r !! k = match m !! k with
                     | Some v => Some (fieldString v)
                     | None => F !! k
                     end)).
  - intros k. by rewrite lookup_empty.
  - intros i x m r Hi IH k. destruct (decide (i = k)) as [->|Hne].
    + by rewrite !lookup_insert_eq.
    + by rewrite !lookup_insert_ne.
Qed.

(** [TryHandle] returns true exactly for a line that holds the marker
    bytes, decodes as a JSON object, and whose timestamp key is absent or
    is a string that [ParseInt] takes. *)
Theorem TryHandle_accepts h d :
  (TryHandle h d).1 = true ↔
    Contains d marker = true
    ∧ ∃ raw, json_Unmarshal d = Some raw
        ∧ (raw !! "_SOURCE_REALTIME_TIMESTAMP" = None
           ∨ ∃ s m, raw !! "_SOURCE_REALTIME_TIMESTAMP" = Some (JString s)
                    ∧ ParseInt s = Some m).
Proof.
  unfold TryHandle, UnmarshalJournalJSON.
  destruct (Contains d marker); simpl;
    [|split; [done|by intros [? _]]].
  destruct (json_Unmarshal d) as [raw|]; simpl;
    [|split; [done|by intros (_ & raw & ? & _)]].
  destruct (raw !! "_SOURCE_REALTIME_TIMESTAMP") as [ts|] eqn:Hts; simpl.
  - destruct ts as [| | |s| |]; simpl;
      try (split; [done|];
           intros (_ & raw' & Hr & [Hn|(s' & m' & Hs & _)]); by simplify_eq).
    destruct (ParseInt s) as [m|] eqn:Hm; simpl.
    + destruct (takeString _ "MESSAGE") as [message r1].
      destruct (takeString r1 "PRIORITY") as [level r2]. simpl.
      split; [|done]. intros _. split; [done|]. exists raw.
      split; [done|]. right. by exists s, m.
    + split; [done|].
      intros (_ & raw' & Hr & [Hn|(s' & m' & Hs & Hp)]); by simplify_eq.
  - destruct (takeString _ "MESSAGE") as [message r1].
    destruct (takeString r1 "PRIORITY") as [level r2]. simpl.
    split; [|done]. intros _. split; [done|]. exists raw. by split; [|left].
Qed.

Lemma takeString_consumed (raw : gmap string JValue) key k :
  (takeString raw key).2 !! k
  = if String.eqb k key
       && match raw !! key with Some (JString _) => true | _ => false end
    then None else raw !! k.
Proof.
  unfold takeString. destruct (String.eqb_spec k key) as [->|Hne]; simpl.
  - destruct (raw !! key) as [[]|] eqn:Hk; simpl; rewrite ?lookup_delete_eq; done.
  - destruct (raw !! key) as [[]|]; simpl; rewrite ?lookup_delete_ne; done.
Qed.

Lemma takeString_twice (R : gmap string JValue) k :
  (takeString (takeString R "MESSAGE").2 "PRIORITY").2 !! k
  = if (String.eqb k "MESSAGE"
        && match R !! "MESSAGE" with Some (JString _) => true | _ => false end)
       || (String.eqb k "PRIORITY"
           && match R !! "PRIORITY" with Some (JString _) => true | _ => false end)
    then None else R !! k.
Proof.
  rewrite takeString_consumed.
  assert ((takeString R "MESSAGE").2 !! "PRIORITY" = R !! "PRIORITY") as ->.
  { by rewrite takeString_consumed. }
  rewrite takeString_consumed.
  destruct (String.eqb_spec k "PRIORITY") as [->|?]; simpl.
  - by destruct (R !! "PRIORITY") as [[]|].
  - rewrite ?andb_false_l, ?orb_false_r.
    by destruct (String.eqb k "MESSAGE" && _).
Qed.

Lemma UnmarshalJournalJSON_fields h d h' raw k :
  json_Unmarshal d = Some raw →
  UnmarshalJournalJSON h d = (h', None) →
  Fields h' !! k
  = if consumedKey raw k then Fields h !! k
    else match raw !! k with
         | Some v => Some (fieldString v)
         | None => Fields h !! k
         end.
Proof.
  intros Hraw.
  unfold UnmarshalJournalJSON. rewrite Hraw.
  assert (∀ (r : gmap string JValue) g g',
    (let '(message, r1) := takeString r "MESSAGE" in
     let '(level, r2) := takeString r1 "PRIORITY" in
     ({| Opts := Opts g; Level := level; Time := Time g; Message := message;
         Fields := map_fold (λ key val fields, <[key := fieldString val]> fields)
                     (Fields g) r2;
         last := last g |}, @None error)) = (g', None) →
    Fields g' !! k
    = match (takeString (takeString r "MESSAGE").2 "PRIORITY").2 !! k with
      | Some v => Some (fieldString v)
      | None => Fields g !! k
      end) as Hstep.
  { intros r g g' Hg.
    destruct (takeString r "MESSAGE") as [message r1]. simpl.
    destruct (takeString r1 "PRIORITY") as [level r2].
    simplify_eq/=. apply Fields_fold_lookup. }
  unfold consumedKey.
  destruct (raw !! "_SOURCE_REALTIME_TIMESTAMP") as [ts|] eqn:Hts.
  - destruct ts as [| | |s| |]; try done.
    destruct (ParseInt s); [|done]. intros Hu. apply Hstep in Hu.
    rewrite Hu, takeString_twice. simpl.
    rewrite !(lookup_delete_ne raw "_SOURCE_REALTIME_TIMESTAMP") by done.
    destruct (String.eqb_spec k "_SOURCE_REALTIME_TIMESTAMP") as [->|Hne]; simpl.
    + by rewrite lookup_delete_eq.
    + rewrite lookup_delete_ne by done. by destruct (_ || _).
  - intros Hu. apply Hstep in Hu. rewrite Hu, takeString_twice.
    destruct (String.eqb_spec k "_SOURCE_REALTIME_TIMESTAMP") as [->|Hne]; simpl.
    + by rewrite Hts.
    + by destruct (_ || _).
Qed.

(** The fields of a decoded entry: every member of the object that is
    not taken out as timestamp, message or level is stored under its name
    as the string of its value; a [MESSAGE] or [PRIORITY] that is not a
    string stays a field; a name the object lacks keeps what the handler
    held. *)
Theorem decoded_fields h d h' raw k :
  json_Unmarshal d = Some raw →
  TryHandle h d = (true, h') →
  Fields h' !! k
  = if consumedKey raw k then Fields h !! k
    else match raw !! k with
         | Some v => Some (fieldString v)
         | None => Fields h !! k
         end.
Proof.
  intros Hraw [_ Hu]%TryHandle_true.
  by apply (UnmarshalJournalJSON_fields h d h' raw k).
Qed.

(** The time of a decoded entry whose timestamp is the decimal string
    of [m] microseconds: [m] divided by a million, rounded down, as
    seconds, and the rest as nanoseconds below one second, also for a
    negative [m]. *)
Theorem timestamp_to_time h d h' raw s m :
  json_Unmarshal d = Some raw →
  raw !! "_SOURCE_REALTIME_TIMESTAMP" = Some (JString s) →
  ParseInt s = Some m →
  TryHandle h d = (true, h') →
  Time h' = TimeUnix (m `div` 1000000) (m `mod` 1000000 * 1000)
  ∧ 0 <= m `mod` 1000000 * 1000 < 1000000000.
Proof.
  intros Hraw Hts Hm [_ Hu]%TryHandle_true. split.
  - by eapply UnmarshalJournalJSON_time.
  - apply time_Unix_micros.
Qed.

(** The message of a decoded entry is the [MESSAGE] member when that is
    a string and empty otherwise, and the placeholder is rendered exactly
    when it is empty. *)
Theorem decoded_message h d h' raw :
  json_Unmarshal d = Some raw →
  TryHandle h d = (true, h') →
  Message h' = match raw !! "MESSAGE" with Some (JString s) => s | _ => "" end
  ∧ msgString h'
    = match raw !! "MESSAGE" with
      | Some (JString (String c s)) =>
          color_Sprint (color_New [FgHiWhite]) (String c s)
      | _ => color_Sprint (color_New [FgHiWhite]) "<no msg>"
      end.
Proof.
  intros Hraw [_ Hu]%TryHandle_true.
  assert (Message h'
          = match raw !! "MESSAGE" with Some (JString s) => s | _ => "" end)
    as Hm.
  { revert Hu. unfold UnmarshalJournalJSON. rewrite Hraw.
    assert (∀ (r : gmap string JValue) g g',
      (let '(message, r1) := takeString r "MESSAGE" in
       let '(level, r2) := takeString r1 "PRIORITY" in
       ({| Opts := Opts g; Level := level; Time := Time g; Message := message;
           Fields := map_fold (λ key val fields, <[key := fieldString val]> fields)
                       (Fields g) r2;
           last := last g |}, @None error)) = (g', None) →
      Message g' = (takeString r "MESSAGE").1) as Hstep.
    { intros r g g' Hg.
      destruct (takeString r "MESSAGE") as [message r1]. simpl.
      destruct (takeString r1 "PRIORITY") as [level r2]. by simplify_eq/=. }
    destruct (raw !! "_SOURCE_REALTIME_TIMESTAMP") as [ts|] eqn:Hts.
    - destruct ts as [| | |s| |]; try done.
      destruct (ParseInt s); [|done]. intros Hu%Hstep.
      by rewrite Hu, takeString_lookup, lookup_delete_ne.
    - intros Hu%Hstep. by rewrite Hu, takeString_lookup. }
  split; [done|]. unfold msgString. rewrite msgColors_fixed, Hm.
  by destruct (raw !! "MESSAGE") as [[| | |[|c s]| |]|].
Qed.

End MoreHandlerFacts.

(** ** Rendering of the fields *)

Lemma stable_insert_sorted x l :
  StronglySorted byLengthThenBytes l →
  Forall (λ y, String.le y x) l →
  StronglySorted byLengthThenBytes (stable_insert byLongest_Less x l).
Proof.
  intros Hs Hle. induction Hs as [|y l Hs IH Hy]; simpl.
  - by repeat constructor.
  - apply Forall_cons in Hle as [Hyx Hle].
    unfold byLongest_Less at 1. case_bool_decide as Hlt.
    + constructor; [by constructor|].
      constructor; [by left|].
      eapply Forall_impl; [exact Hy|]. intros z Hz. left.
      destruct Hz as [?|[? _]]; lia.
    + constructor; [by apply IH|].
      assert (byLengthThenBytes y x) as Hyx'.
      { destruct (decide (String.length y = String.length x)); [by right|].
        left. lia. }
      eapply Forall_forall. intros z Hz.
      assert (z ∈ x :: l) as Hz'.
      { by rewrite <- (stable_insert_Permutation byLongest_Less x l). }
      apply elem_of_cons in Hz' as [->|Hz']; [done|].
      eapply Forall_forall in Hy; done.
Qed.

Lemma sort_Stable_sorted l :
  StronglySorted String.le l →
  StronglySorted byLengthThenBytes (sort_Stable byLongest_Less l).
Proof.
  unfold sort_Stable.
  assert (∀ acc,
    StronglySorted byLengthThenBytes acc →
    StronglySorted String.le l →
    Forall (λ y, Forall (λ x, String.le y x) l) acc →
    StronglySorted byLengthThenBytes
      (foldl (λ sorted x, stable_insert byLongest_Less x sorted) acc l))
    as Hacc.
  { induction l as [|x l IH]; intros acc Hacc Hl Hle; simpl; [done|].
    apply StronglySorted_inv in Hl as [Hl Hx].
    apply IH; [|done|].
    - apply stable_insert_sorted; [done|].
      eapply Forall_impl; [exact Hle|]. intros y Hy.
      by apply Forall_cons in Hy as [? _].
    - eapply Forall_forall. intros y Hy.
      assert (y ∈ x :: acc) as Hy'.
      { by rewrite <- (stable_insert_Permutation byLongest_Less x acc). }
      apply elem_of_cons in Hy' as [->|Hy']; [done|].
      eapply Forall_forall in Hle; [|done].
      by apply Forall_cons in Hle as [_ ?]. }
  intros Hl. apply Hacc; [constructor|done|constructor].
Qed.

Section MoreJoinFacts.
Context {L : GoLib}.

(** The pairs [joinKVs] returns are in ascending byte-wise order, and,
    when [SortLongest] is set, in ascending order of length with pairs of
    one length in byte-wise order. *)
Theorem joinKVs_sorted range h skipUnchanged sep :
  (SortLongest (Opts h) = false →
   StronglySorted String.le (joinKVs_range range h skipUnchanged sep))
  ∧ (SortLongest (Opts h) = true →
     StronglySorted byLengthThenBytes (joinKVs_range range h skipUnchanged sep)).
Proof.
  unfold joinKVs_range. split; intros ->.
  - apply (StronglySorted_merge_sort String.le).
  - apply sort_Stable_sorted, (StronglySorted_merge_sort String.le).
Qed.

Lemma emitsKV_skip_weaker h p :
  emitsKV h true p = true → emitsKV h false p = true.
Proof.
  destruct p as [k v]. unfold emitsKV.
  destruct (shouldShowKey h k); simpl; [|done]. done.
Qed.

Lemma emitsKV_empty_last h skipUnchanged p :
  last h = ∅ → emitsKV h skipUnchanged p = emitsKV h false p.
Proof.
  intros Hl. destruct p as [k v]. unfold emitsKV.
  rewrite Hl, lookup_empty. by rewrite andb_false_r.
Qed.

Lemma shouldShowUnchanged_shown h k :
  shouldShowUnchanged h k = true → shouldShowKey h k = true.
Proof.
  intros [Hne Hin]%shouldShowUnchanged_true. by apply shouldShowKey_kept.
Qed.

(** A key of a non-empty [Keep], in its own or its lower-case spelling,
    is rendered whenever the entry has it: neither [Skip], nor a leading
    underscore, nor an unchanged value with [skipUnchanged] hides it. *)
Theorem kept_key_always_rendered h skipUnchanged k v :
  size (Keep (Opts h)) ≠ 0%nat →
  k ∈ Keep (Opts h) ∨ strings_ToLower k ∈ Keep (Opts h) →
  Fields h !! k = Some v →
  k ∈ shownKeys h skipUnchanged
  ∧ renderKV h "=" (k, v) ∈ joinKVs h skipUnchanged "=".
Proof.
  intros Hne Hin Hk.
  assert (emitsKV h skipUnchanged (k, v) = true) as He.
  { unfold emitsKV. rewrite (shouldShowKey_kept _ _ Hne Hin). simpl.
    assert (shouldShowUnchanged h k = true) as ->
      by (by apply shouldShowUnchanged_true).
    destruct (last h !! k); by rewrite ?andb_false_r. }
  split; [apply shownKeys_elem|apply joinKVs_elem]; eauto.
Qed.

(** Setting [skipUnchanged] only takes pairs away: what is rendered with
    it is rendered without it, and with an empty snapshot, as for the
    first line of a handler, it takes none away. *)
Theorem skipUnchanged_only_removes h sep :
  joinKVs h true sep ⊆+ joinKVs h false sep
  ∧ (last h = ∅ → joinKVs h true sep = joinKVs h false sep).
Proof.
  split.
  - unfold joinKVs. rewrite !joinKVs_range_Permutation.
    apply sublist_submseteq, fmap_sublist.
    rewrite <- (list_filter_filter_l
                  (λ p, emitsKV h true p = true) (λ p, emitsKV h false p = true))
      by apply emitsKV_skip_weaker.
    apply sublist_filter.
  - intros Hl. unfold joinKVs, joinKVs_range. rewrite !joinKVs_loop.
    rewrite (list_filter_iff (λ p, emitsKV h true p = true)
               (λ p, emitsKV h false p = true)); [done|].
    intros p. by rewrite (emitsKV_empty_last h true p Hl).
Qed.

(** Every field gives at most one pair: there are as many pairs as keys
    the loop does not pass over, and never more than fields. *)
Theorem joinKVs_length h skipUnchanged sep :
  length (joinKVs h skipUnchanged sep) = length (shownKeys h skipUnchanged)
  ∧ (length (joinKVs h skipUnchanged sep) ≤ size (Fields h))%nat
  ∧ NoDup (shownKeys h skipUnchanged).
Proof.
  assert (length (joinKVs h skipUnchanged sep)
          = length (shownKeys h skipUnchanged)) as Hlen.
  { unfold joinKVs, shownKeys.
    by rewrite joinKVs_range_Permutation, !length_fmap. }
  split_and!; [done| |].
  - rewrite Hlen. unfold shownKeys. rewrite length_fmap.
    etrans; [apply sublist_length, sublist_filter|].
    by rewrite length_map_to_list.
  - unfold shownKeys.
    apply (sublist_NoDup _ (map_to_list (Fields h)).*1).
    + apply NoDup_fst_map_to_list.
    + apply fmap_sublist, sublist_filter.
Qed.

End MoreJoinFacts.



Lemma string_length_app (a b : string) :
  String.length (a +:+ b) = (String.length a + String.length b)%nat.
Proof.
  induction a as [|c a IH]; [done|]. rewrite string_app_cons. simpl.
  by rewrite IH.
Qed.

Lemma string_take_length n (s : string) :
  String.length (string_take n s) = (n `min` String.length s)%nat.
Proof.
  revert s. induction n as [|n IH]; intros [|c s]; simpl; [done..|].
  by rewrite IH.
Qed.

Lemma string_take_prefix n (s : string) : HasPrefix s (string_take n s) = true.
Proof.
  unfold HasPrefix. revert s.
  induction n as [|n IH]; intros [|c s]; simpl; [done..|].
  destruct (ascii_dec c c) as [_|?]; [apply IH|done].
Qed.

Section MoreRenderFacts.
Context {L : GoLib}.

(** With truncation on, the value handed to the value colour is the
    field's value when that is no longer than [TruncateLength], and
    otherwise its first [TruncateLength] bytes followed by three dots, so
    never more than [TruncateLength + 3] bytes; with truncation off it is
    the value. *)
Theorem rendered_value_truncated h sep k v :
  ∃ shown,
    renderKV h sep (k, v)
    = color_Sprint (KeyColor (Opts h)) k +:+ sep
      +:+ color_Sprint (ValColor (Opts h)) shown
    ∧ (Truncates (Opts h) = false → shown = v)
    ∧ (Truncates (Opts h) = true →
       (String.length v ≤ TruncateLength (Opts h))%nat → shown = v)
    ∧ (Truncates (Opts h) = true →
       (TruncateLength (Opts h) < String.length v)%nat →
       shown = string_take (TruncateLength (Opts h)) v +:+ "..."
       ∧ String.length shown = (TruncateLength (Opts h) + 3)%nat
       ∧ HasPrefix v (string_take (TruncateLength (Opts h)) v) = true).
Proof.
  unfold renderKV.
  destruct (Truncates (Opts h)); simpl.
  - case_bool_decide as Hlen.
    + eexists. split; [done|]. split_and!; [done|intros _ ?; lia|].
      intros _ _. split_and!; [done| |apply string_take_prefix].
      rewrite string_length_app, string_take_length. simpl. lia.
    + eexists. split; [done|]. split_and!; [done..|]. intros _ ?. lia.
  - eexists. split; [done|]. by split_and!.
Qed.

(** A number with a fractional part that takes the integer form is
    stored as its integer part toward zero.  For a negative number that is
    the whole number above it, while the test that let it through measured
    its distance from the whole number below: the stored integer is then
    one more than [math.Floor] of the value. *)
Theorem integer_form_truncates s m e :
  e < 0 →
  Zpos m ≠ Z.shiftl (Z.shiftr (Zpos m) (- e)) (- e) →
  Z.shiftr (Zpos m) (- e) <= F64.max_int64 →
  F64.ltb (F64.sub (S754_finite s m e) (F64.Floor (S754_finite s m e)))
    F64.lit_0_000001
  && F64.ltb (S754_finite s m e) F64.lit_1e9 = true →
  fieldString (JNumber (S754_finite s m e))
  = fmt_d (if s then - Z.shiftr (Zpos m) (- e) else Z.shiftr (Zpos m) (- e))
  ∧ F64.Floor (S754_finite s m e)
    = F64.of_Z (if s then - Z.shiftr (Zpos m) (- e) - 1
                else Z.shiftr (Zpos m) (- e)).
Proof.
  intros He Hinexact Hq Htest. set (q := Z.shiftr (Zpos m) (- e)) in *.
  assert (0 <= q) as Hq0 by (apply Z.shiftr_nonneg; lia).
  split.
  - unfold fieldString. rewrite Htest. f_equal. unfold F64.to_int.
    destruct (Z.leb_spec 0 e); [lia|]. fold q.
    unfold F64.min_int64, F64.max_int64 in *.
    destruct s.
    + destruct (Z.leb_spec (- 2 ^ 63) (- q)); [|lia].
      by destruct (Z.leb_spec (- q) (2 ^ 63 - 1)); [|lia].
    + destruct (Z.leb_spec (- 2 ^ 63) q); [|lia].
      by destruct (Z.leb_spec q (2 ^ 63 - 1)); [|lia].
  - unfold F64.Floor. destruct (Z.leb_spec 0 e); [lia|]. fold q.
    destruct (Z.eqb_spec (Zpos m) (Z.shiftl q (- e))); [done|].
    destruct s; [|done]. f_equal. lia.
Qed.

End MoreRenderFacts.

(** ** Runs of the dispatcher *)

Section MoreDispatcherFacts.
Context {L : GoLib} {S : Siblings}.

Lemma Scanner_line_journal_state opts st l :
  journalJSONEntry (Scanner_line opts st l)
  = (if (TryHandle (journalJSONEntry st) (TrimPrefix l "@cee: ")).1
     then clear (TryHandle (journalJSONEntry st) (TrimPrefix l "@cee: ")).2
     else (TryHandle (journalJSONEntry st) (TrimPrefix l "@cee: ")).2).
Proof.
  unfold Scanner_line, Scanner_switch.
  destruct (TryHandle _ _) as [[] journal]; simpl; [done|].
  destruct (JSON_TryHandle _ _) as [[] json]; simpl.
  { by destruct (JSON_Prettify _ _). }
  destruct (Logrus_CanHandle _ _) as [[] logrus]; simpl; [|done].
  destruct (logfmt_Parse _ _) as [[] logrus']; simpl; [|done].
  by destruct (Logrus_Prettify _ _).
Qed.

Lemma TryHandle_false_state h d :
  (TryHandle h d).1 = false →
  (TryHandle h d).2 = h ∨ (TryHandle h d).2 = clear h.
Proof.
  unfold TryHandle. destruct (Contains d marker); simpl; [|by left].
  destruct (UnmarshalJournalJSON h d) as [h' [e|]] eqn:Hu; [|done].
  intros _. right. simpl. by rewrite (UnmarshalJournalJSON_error _ _ _ _ Hu).
Qed.

Lemma TryHandle_Opts h d : Opts (TryHandle h d).2 = Opts h.
Proof.
  unfold TryHandle. destruct (Contains d marker); simpl; [|done].
  destruct (UnmarshalJournalJSON h d) as [h' o] eqn:Hu.
  apply UnmarshalJournalJSON_last in Hu as [_ Ho]. by destruct o.
Qed.

Lemma Scanner_line_cleared opts st l :
  entryCleared (journalJSONEntry st) →
  entryCleared (journalJSONEntry (Scanner_line opts st l))
  ∧ Opts (journalJSONEntry (Scanner_line opts st l))
    = Opts (journalJSONEntry st).
Proof.
  intros Hc. rewrite Scanner_line_journal_state.
  destruct (TryHandle _ _).1 eqn:Hok.
  - split; [done|]. simpl. apply TryHandle_Opts.
  - split; [|apply TryHandle_Opts].
    by destruct (TryHandle_false_state _ _ Hok) as [-> | ->].
Qed.

Lemma Scanner_lines_cleared opts lines st :
  entryCleared (journalJSONEntry st) →
  entryCleared (journalJSONEntry (Scanner_lines opts lines st))
  ∧ Opts (journalJSONEntry (Scanner_lines opts lines st))
    = Opts (journalJSONEntry st).
Proof.
  revert st. induction lines as [|l lines IH]; intros st Hc; [done|].
  change (Scanner_lines opts (l :: lines) st)
    with (Scanner_lines opts lines (Scanner_line opts st l)).
  destruct (Scanner_line_cleared opts st l Hc) as [Hc' Ho].
  destruct (IH _ Hc') as [? ->]. done.
Qed.

(** Between two lines the Journal-JSON handler of the dispatcher holds
    no entry: after any lines, its level and message are empty, its time
    is the zero value, it has no fields, and its options are those given
    to [Scanner]. *)
Theorem Scanner_entry_cleared opts lines :
  entryCleared (journalJSONEntry (Scanner_lines opts lines (Scanner_init opts)))
  ∧ Opts (journalJSONEntry (Scanner_lines opts lines (Scanner_init opts)))
    = opts.
Proof. apply (Scanner_lines_cleared opts lines (Scanner_init opts)). by repeat split. Qed.

(** In a run of the dispatcher a line rendered by the Journal-JSON
    handler shows fields of that line only: the entry has, under each
    name, the string of the member of that name, unless the member was
    taken out as timestamp, message or level, and nothing under a name the
    line lacks. *)
Theorem Scanner_fields_of_the_line opts lines d raw h k :
  json_Unmarshal d = Some raw →
  TryHandle (journalJSONEntry (Scanner_lines opts lines (Scanner_init opts))) d
    = (true, h) →
  Fields h !! k
  = if consumedKey raw k then None else fieldString <$> raw !! k.
Proof.
  intros Hraw Ht.
  destruct (Scanner_lines_cleared opts lines (Scanner_init opts))
    as [(_ & _ & _ & Hf) _]; [by repeat split|].
  apply TryHandle_true in Ht as [_ Hu].
  rewrite (UnmarshalJournalJSON_fields _ _ _ _ k Hraw Hu), Hf, lookup_empty.
  destruct (consumedKey raw k); [done|]. by destruct (raw !! k).
Qed.

Lemma Scanner_line_none opts st l :
  owner st (TrimPrefix l "@cee: ") = OwnNone →
  dst (Scanner_line opts st l) = dst st +:+ TrimPrefix l "@cee: " +:+ eol
  ∧ lastJournalJSON (Scanner_line opts st l) = false
  ∧ lastJSON (Scanner_line opts st l) = false
  ∧ lastLogrus (Scanner_line opts st l) = false.
Proof.
  intros Ho. split.
  { by rewrite Scanner_line_dst, Scanner_switch_passthrough. }
  revert Ho. unfold Scanner_line, Scanner_switch, owner.
  destruct (TryHandle _ _) as [[] journal]; simpl; [done|].
  destruct (JSON_TryHandle _ _) as [[] json]; simpl; [done|].
  destruct (Logrus_CanHandle _ _) as [[] logrus]; simpl; [|done].
  by destruct (logfmt_Parse _ _) as [[] logrus'].
Qed.

(** Lines that no handler takes, in whatever state, are copied: the run
    writes each of them without a leading ["@cee: "] and with a newline,
    in order, and after the last one no continuity flag is set. *)
Theorem Scanner_copies_unhandled_lines opts lines st :
  (∀ l st', l ∈ lines → owner st' (TrimPrefix l "@cee: ") = OwnNone) →
  dst (Scanner_lines opts lines st)
    = dst st +:+ flatten ((λ l, TrimPrefix l "@cee: " +:+ eol) <$> lines)
  ∧ (lines ≠ [] → flagsSet (Scanner_lines opts lines st) = 0%nat).
Proof.
  revert st. induction lines as [|l lines IH]; intros st Hnone.
  { split; [|done]. simpl. by rewrite string_app_nil_r. }
  change (Scanner_lines opts (l :: lines) st)
    with (Scanner_lines opts lines (Scanner_line opts st l)).
  destruct (Scanner_line_none opts st l) as (Hd & Hf1 & Hf2 & Hf3).
  { apply Hnone. by left. }
  destruct (IH (Scanner_line opts st l)) as [Hdst Hflags].
  { intros l' st' Hl'. apply Hnone. by right. }
  split.
  - rewrite Hdst, Hd. simpl. by rewrite !string_app_assoc.
  - intros _. destruct lines as [|l' lines]; [|by apply Hflags].
    unfold flagsSet. simpl. by rewrite Hf1, Hf2, Hf3.
Qed.

(** After a line that no handler took, a line of the Journal-JSON
    handler is written as [Prettify] renders it with [skipUnchanged]
    unset, whatever the options say.  The pairs in that rendering, the
    list [joinKVs] returns, are up to their order the pairs of all the
    fields whose key passes [shouldShowKey]: each such field gives its
    pair, also with the value it had in the journal line before. *)
Theorem after_unhandled_line_all_shown opts st l1 l2 h2 :
  owner st (TrimPrefix l1 "@cee: ") = OwnNone →
  TryHandle (journalJSONEntry (Scanner_line opts st l1)) (TrimPrefix l2 "@cee: ")
    = (true, h2) →
  dst (Scanner_line opts (Scanner_line opts st l1) l2)
    = dst (Scanner_line opts st l1) +:+ (Prettify h2 false).1 +:+ eol
  ∧ (Prettify h2 false).1
    = tabwriter_Flush
        (timeString h2 +:+ " |" +:+ levelString h2 +:+ "| " +:+ msgString h2
         +:+ String "009" " "
         +:+ Join (joinKVs h2 false "=") (String "009" " "))
  ∧ joinKVs h2 false "="
    ≡ₚ renderKV h2 "=" <$>
        filter (λ p, shouldShowKey h2 p.1 = true) (map_to_list (Fields h2))
  ∧ (∀ k v, Fields h2 !! k = Some v → shouldShowKey h2 k = true →
       renderKV h2 "=" (k, v) ∈ joinKVs h2 false "=").
Proof.
  intros Ho Ht.
  destruct (Scanner_line_none opts st l1 Ho) as (_ & Hf & _).
  destruct (Scanner_line_journal opts _ l2 h2 Ht) as (_ & _ & Hdst).
  rewrite Hf, andb_false_r in Hdst. split_and!; [done..| |].
  - apply joinKVs_Permutation_filter. intros [k v]. apply emitsKV_true_noskip.
  - intros k v Hk Hs. apply joinKVs_elem. exists k, v.
    split_and!; [done| |done]. by apply emitsKV_true_noskip.
Qed.

(** A line rendered by another handler does not make the Journal-JSON
    handler forget: when a line without the marker bytes, taken by the
    generic-JSON or the logfmt handler, stands between two journal lines,
    the second journal line is still rendered with [skipUnchanged] set and
    compared with the fields of the first. *)
Theorem snapshot_survives_other_handler opts st l1 l2 l3 h1 h3 :
  SkipUnchanged opts = true →
  TryHandle (journalJSONEntry st) (TrimPrefix l1 "@cee: ") = (true, h1) →
  Contains (TrimPrefix l2 "@cee: ") marker = false →
  owner (Scanner_line opts st l1) (TrimPrefix l2 "@cee: ") ≠ OwnNone →
  TryHandle
    (journalJSONEntry (Scanner_line opts (Scanner_line opts st l1) l2))
    (TrimPrefix l3 "@cee: ") = (true, h3) →
  last h3 = Fields h1
  ∧ dst (Scanner_line opts (Scanner_line opts (Scanner_line opts st l1) l2) l3)
    = dst (Scanner_line opts (Scanner_line opts st l1) l2)
      +:+ (Prettify h3 true).1 +:+ eol.
Proof.
  intros Hskip Ht1 Hc Ho Ht3.
  destruct (Scanner_line_journal opts st l1 h1 Ht1) as (Hj1 & Hf1 & _).
  set (st1 := Scanner_line opts st l1) in *.
  assert (journalJSONEntry (Scanner_line opts st1 l2) = clear h1
          ∧ lastJournalJSON (Scanner_line opts st1 l2) = true) as [Hj2 Hf2].
  { revert Ho. unfold Scanner_line, Scanner_switch, owner, TryHandle.
    rewrite Hc. simpl.
    destruct (JSON_TryHandle _ _) as [[] json]; simpl.
    { by destruct (JSON_Prettify _ _). }
    destruct (Logrus_CanHandle _ _) as [[] logrus]; simpl; [|done].
    destruct (logfmt_Parse _ _) as [[] logrus']; simpl; [|done].
    by destruct (Logrus_Prettify _ _). }
  destruct (Scanner_line_journal opts _ l3 h3 Ht3) as (_ & _ & Hdst).
  rewrite Hf2, Hskip in Hdst. split; [|done].
  apply TryHandle_true in Ht3 as [_ Hu].
  apply UnmarshalJournalJSON_last in Hu as [-> _]. by rewrite Hj2.
Qed.

End MoreDispatcherFacts.

(** ** The input *)

Lemma Scan_from_eq cur data :
  Scan_from cur data
  = if MaxScanTokenSize <=? Z.of_nat (String.length cur)
    then ([], Some ErrTooLong)
    else
      match data with
      | EmptyString =>
          (if String.eqb cur "" then [] else [dropCR cur], None)
      | String c data' =>
          if Ascii.eqb c "010" then
            let '(lines, err) := Scan_from "" data' in (dropCR cur :: lines, err)
          else Scan_from (cur +:+ String c "") data'
      end.
Proof. by destruct data. Qed.

(** Without an error the scanner delivers the lines of [bufio.ScanLines]. *)
Lemma Scan_from_lines cur data :
  (Scan_from cur data).2 = None →
  (Scan_from cur data).1 = ScanLines_from cur data.
Proof.
  revert cur. induction data as [|c data IH]; intros cur;
    rewrite Scan_from_eq; destruct (MaxScanTokenSize <=? _); try done.
  simpl. destruct (Ascii.eqb c "010"); [|apply IH].
  specialize (IH ""). destruct (Scan_from "" data) as [lines err]. simpl in *.
  intros Herr. by rewrite IH.
Qed.

(** A line that fills the buffer ends the scan: while no newline is met,
    [MaxScanTokenSize] bytes of one line suffice for [ErrTooLong], and
    neither that line nor what follows it is delivered. *)
Lemma Scan_from_too_long cur l rest :
  free_of "010" l = true →
  MaxScanTokenSize <= Z.of_nat (String.length cur + String.length l) →
  Scan_from cur (l +:+ rest) = ([], Some ErrTooLong).
Proof.
  revert cur. induction l as [|c l IH]; intros cur Hfree Hlen;
    rewrite Scan_from_eq;
    destruct (Z.leb_spec MaxScanTokenSize (Z.of_nat (String.length cur)))
      as [|Hlt]; try done.
  - rewrite Nat.add_0_r in Hlen. lia.
  - rewrite string_app_cons. simpl in Hfree.
    apply andb_true_iff in Hfree as [Hc Hfree].
    apply negb_true_iff in Hc. rewrite Hc. apply IH; [done|].
    rewrite string_length_app. simpl in *. lia.
Qed.

Lemma Scan_from_final_newline cur s :
  cur ≠ "" ∨ s ≠ "" →
  last_byte s ≠ Some "010"%char →
  Scan_from cur (s +:+ eol) = Scan_from cur s.
Proof.
  revert cur. induction s as [|c s IH]; intros cur Hne Hlast.
  - destruct Hne as [Hne|]; [|done].
    rewrite string_app_nil_l, (Scan_from_eq cur eol), (Scan_from_eq cur "").
    destruct (MaxScanTokenSize <=? _); [done|].
    change (Scan_from "" "") with (@nil string, @None bufio_error). simpl.
    by destruct (String.eqb_spec cur "").
  - rewrite string_app_cons.
    rewrite (Scan_from_eq cur (String c (s +:+ eol))),
      (Scan_from_eq cur (String c s)).
    destruct (MaxScanTokenSize <=? _); [done|].
    destruct (Ascii.eqb_spec c "010") as [->|Hc].
    + destruct s as [|c' s]; [done|]. by rewrite IH; [|right|].
    + destruct s as [|c' s].
      * apply IH; [left; by destruct cur|done].
      * apply IH; [by right|done].
Qed.

Lemma HasPrefix_app (pre l : string) : HasPrefix (pre +:+ l) pre = true.
Proof.
  unfold HasPrefix. induction pre as [|c pre IH]; [by destruct l|].
  rewrite string_app_cons. simpl. by destruct (ascii_dec c c).
Qed.

Lemma string_drop_app (pre l : string) :
  string_drop (String.length pre) (pre +:+ l) = l.
Proof.
  induction pre as [|c pre IH]; [by destruct l|].
  rewrite string_app_cons. apply IH.
Qed.

Lemma TrimPrefix_app (pre l : string) : TrimPrefix (pre +:+ l) pre = l.
Proof. unfold TrimPrefix. by rewrite HasPrefix_app, string_drop_app. Qed.

Section MoreInputFacts.
Context {L : GoLib} {S : Siblings}.

(** The newline after the last line of the input is optional: on an
    input that ends in the middle of a non-empty line, [Scanner] writes
    the same bytes and returns the same result as when a newline follows.
    This holds also for a last line that fills the buffer, where both
    runs end with [ErrTooLong] and that line unwritten. *)
Theorem final_newline_optional src opts :
  src ≠ "" →
  last_byte src ≠ Some "010"%char →
  Scanner (src +:+ eol) opts = Scanner src opts.
Proof.
  intros Hne Hlast. unfold Scanner, Scan.
  by rewrite Scan_from_final_newline; [|right|].
Qed.

(** The prefix ["@cee: "] is transparent: a line with it is classified,
    rendered and written as the line without it. *)
Theorem cee_prefix_transparent opts st l :
  HasPrefix l "@cee: " = false →
  Scanner_line opts st ("@cee: " +:+ l) = Scanner_line opts st l.
Proof.
  intros Hp. unfold Scanner_line. rewrite TrimPrefix_app.
  unfold TrimPrefix. by rewrite Hp.
Qed.

End MoreInputFacts.

(** ** The further properties on concrete lines *)

Import Sample MoreSample.

(** Closes an equation between closed terms by evaluation, checked by
    the kernel when the proof is closed. *)
Ltac by_evaluation :=
  lazymatch goal with
  | |- ?x = ?y => vm_cast_no_check (@eq_refl _ y)
  | |- _ => vm_compute; reflexivity
  end.

(** The time of [line_before_epoch], one microsecond before the epoch:
    second -1 and 999999000 nanoseconds. *)
Lemma timestamp_to_time_witness :
  Time h_before_epoch
  = TimeUnix ((-1) `div` 1000000) ((-1) `mod` 1000000 * 1000)
  ∧ 0 <= (-1) `mod` 1000000 * 1000 < 1000000000.
Proof.
  assert (json_Unmarshal (GoLib:=Ref.lib) line_before_epoch
          = Some raw_before_epoch) as H1 by by_evaluation.
  assert (raw_before_epoch !! "_SOURCE_REALTIME_TIMESTAMP"
          = Some (JString "-1")) as H2 by by_evaluation.
  assert (ParseInt "-1" = Some (-1)) as H3 by by_evaluation.
  assert (TryHandle (H:=Ref.lib) h0 line_before_epoch
          = (true, h_before_epoch)) as H4 by by_evaluation.
  exact (timestamp_to_time (L:=Ref.lib) h0 line_before_epoch h_before_epoch
           raw_before_epoch "-1" (-1) H1 H2 H3 H4).
Defined.

(** The number under [MESSAGE] in [line_before_epoch] stays a field. *)
Lemma decoded_fields_witness :
  Fields h_before_epoch !! "MESSAGE"
  = if consumedKey raw_before_epoch "MESSAGE" then Fields h0 !! "MESSAGE"
    else match raw_before_epoch !! "MESSAGE" with
         | Some v => Some (fieldString (H:=Ref.lib) v)
         | None => Fields h0 !! "MESSAGE"
         end.
Proof.
  assert (json_Unmarshal (GoLib:=Ref.lib) line_before_epoch
          = Some raw_before_epoch) as H1 by by_evaluation.
  assert (TryHandle (H:=Ref.lib) h0 line_before_epoch
          = (true, h_before_epoch)) as H2 by by_evaluation.
  exact (decoded_fields (L:=Ref.lib) h0 line_before_epoch h_before_epoch
           raw_before_epoch "MESSAGE" H1 H2).
Defined.

(** The message of [line_before_epoch] is a number: the entry's message
    is empty and the placeholder is rendered. *)
Lemma decoded_message_witness :
  Message h_before_epoch
  = match raw_before_epoch !! "MESSAGE" with Some (JString s) => s | _ => "" end
  ∧ msgString (H:=Ref.lib) h_before_epoch
    = match raw_before_epoch !! "MESSAGE" with
      | Some (JString (String c s)) =>
          color_Sprint (GoLib:=Ref.lib) (color_New [FgHiWhite]) (String c s)
      | _ => color_Sprint (GoLib:=Ref.lib) (color_New [FgHiWhite]) "<no msg>"
      end.
Proof.
  assert (json_Unmarshal (GoLib:=Ref.lib) line_before_epoch
          = Some raw_before_epoch) as H1 by by_evaluation.
  assert (TryHandle (H:=Ref.lib) h0 line_before_epoch
          = (true, h_before_epoch)) as H2 by by_evaluation.
  exact (decoded_message (L:=Ref.lib) h0 line_before_epoch h_before_epoch
           raw_before_epoch H1 H2).
Defined.

(** With [_pid] kept, the field [_PID] of [line1] is rendered. *)
Lemma kept_key_always_rendered_witness :
  ("_PID" ∈ shownKeys (H:=Ref.lib) h_kept true)
  ∧ (renderKV (H:=Ref.lib) h_kept "=" ("_PID", Ref.dq "'42'")
     ∈ joinKVs (H:=Ref.lib) h_kept true "=").
Proof.
  assert (size (Keep (Opts h_kept)) ≠ 0%nat) as H1.
  { refine (bool_decide_eq_true_1 _ _). by_evaluation. }
  assert ("_PID" ∈ Keep (Opts h_kept)
          ∨ strings_ToLower (GoLib:=Ref.lib) "_PID" ∈ Keep (Opts h_kept)) as H2.
  { right. refine (bool_decide_eq_true_1 _ _). by_evaluation. }
  assert (Fields h_kept !! "_PID" = Some (Ref.dq "'42'")) as H3
    by by_evaluation.
  exact (kept_key_always_rendered (L:=Ref.lib) h_kept true "_PID"
           (Ref.dq "'42'") H1 H2 H3).
Defined.

(** The number -2.9999999 takes the integer form and is stored as -2,
    while [math.Floor] of it is -3. *)
Lemma integer_form_truncates_witness :
  (fieldString (H:=Ref.lib) (JNumber (S754_finite true mantissa_neg exponent_neg))
   = fmt_d (if true then - Z.shiftr (Zpos mantissa_neg) (- exponent_neg)
            else Z.shiftr (Zpos mantissa_neg) (- exponent_neg))
   ∧ F64.Floor (S754_finite true mantissa_neg exponent_neg)
     = F64.of_Z (if true then - Z.shiftr (Zpos mantissa_neg) (- exponent_neg) - 1
                 else Z.shiftr (Zpos mantissa_neg) (- exponent_neg)))
  ∧ Z.shiftr (Zpos mantissa_neg) (- exponent_neg) = 2.
Proof.
  split; [|by_evaluation].
  assert (exponent_neg < 0) as H1 by by_evaluation.
  assert (Zpos mantissa_neg
          ≠ Z.shiftl (Z.shiftr (Zpos mantissa_neg) (- exponent_neg))
              (- exponent_neg)) as H2.
  { refine (bool_decide_eq_false_1 _ _). by_evaluation. }
  assert (Z.shiftr (Zpos mantissa_neg) (- exponent_neg) <= F64.max_int64) as H3.
  { apply (proj1 (Z.leb_le _ _)). by_evaluation. }
  assert (F64.ltb
            (F64.sub (S754_finite true mantissa_neg exponent_neg)
               (F64.Floor (S754_finite true mantissa_neg exponent_neg)))
            F64.lit_0_000001
          && F64.ltb (S754_finite true mantissa_neg exponent_neg) F64.lit_1e9
          = true) as H4 by by_evaluation.
  exact (integer_form_truncates (L:=Ref.lib) true mantissa_neg exponent_neg
           H1 H2 H3 H4).
Defined.

(** In the run that has seen [line1], the entry of [line2] has under
    [unit] the string of that member of [line2]. *)
Lemma Scanner_fields_of_the_line_witness :
  Fields h_run2 !! "unit"
  = if consumedKey raw2 "unit" then None
    else fieldString (H:=Ref.lib) <$> raw2 !! "unit".
Proof.
  assert (json_Unmarshal (GoLib:=Ref.lib) line2 = Some raw2) as H1
    by by_evaluation.
  assert (TryHandle (H:=Ref.lib)
            (journalJSONEntry
               (Scanner_lines (H:=Ref.lib) (H0:=Ref.siblings) Ref.opts0 [line1]
                  (Scanner_init Ref.opts0)))
            line2 = (true, h_run2)) as H2 by by_evaluation.
  exact (Scanner_fields_of_the_line (L:=Ref.lib) (S:=Ref.siblings) Ref.opts0
           [line1] line2 raw2 h_run2 "unit" H1 H2).
Defined.

(** The two lines of [unhandled_lines] are copied, the first without its
    prefix. *)
Lemma Scanner_copies_unhandled_lines_witness :
  dst (Scanner_lines (H:=Ref.lib) (H0:=Ref.siblings) Ref.opts0 unhandled_lines st0)
    = dst st0
      +:+ flatten ((λ l, TrimPrefix l "@cee: " +:+ eol) <$> unhandled_lines)
  ∧ (unhandled_lines ≠ [] →
     flagsSet (Scanner_lines (H:=Ref.lib) (H0:=Ref.siblings) Ref.opts0
                 unhandled_lines st0) = 0%nat).
Proof.
  assert (∀ (l : string) (st' : ScannerState (H0:=Ref.siblings)),
            l ∈ unhandled_lines →
            owner (H:=Ref.lib) (H0:=Ref.siblings) st' (TrimPrefix l "@cee: ")
            = OwnNone) as H1.
  { intros l st' Hl. unfold unhandled_lines in Hl.
    apply elem_of_cons in Hl as [->|Hl]; [by_evaluation|].
    apply list_elem_of_singleton in Hl as ->. by_evaluation. }
  exact (Scanner_copies_unhandled_lines (L:=Ref.lib) (S:=Ref.siblings)
           Ref.opts0 unhandled_lines st0 H1).
Defined.

(** After [line1] and a line no handler took, [line2] is rendered with
    [skipUnchanged] unset: the pair of [code], which has the value it had
    in [line1], is among those rendered. *)
Lemma after_unhandled_line_all_shown_witness :
  last h_after_unhandled !! "code" = Some "3"
  ∧ (renderKV (H:=Ref.lib) h_after_unhandled "=" ("code", "3")
     ∈ joinKVs (H:=Ref.lib) h_after_unhandled false "=").
Proof.
  assert (owner (H:=Ref.lib) (H0:=Ref.siblings) st1 (TrimPrefix "@cee: =" "@cee: ")
          = OwnNone) as H1 by by_evaluation.
  assert (TryHandle (H:=Ref.lib)
            (journalJSONEntry
               (Scanner_line (H:=Ref.lib) (H0:=Ref.siblings) Ref.opts0 st1 "@cee: ="))
            (TrimPrefix line2 "@cee: ") = (true, h_after_unhandled)) as H2
    by by_evaluation.
  assert (Fields h_after_unhandled !! "code" = Some "3") as H3
    by by_evaluation.
  assert (shouldShowKey (H:=Ref.lib) h_after_unhandled "code" = true) as H4
    by by_evaluation.
  split; [by_evaluation|].
  exact (proj2 (proj2 (proj2
           (after_unhandled_line_all_shown (L:=Ref.lib) (S:=Ref.siblings)
              Ref.opts0 st1 "@cee: =" line2 h_after_unhandled H1 H2)))
           "code" "3" H3 H4).
Defined.

(** [line1], a generic-JSON line, then [line2]: the entry of [line2] is
    compared with the fields of [line1]. *)
Lemma snapshot_survives_other_handler_witness :
  last h_after_json = Fields h_line1.
Proof.
  assert (TryHandle (H:=Ref.lib) (journalJSONEntry st0) (TrimPrefix line1 "@cee: ")
          = (true, h_line1)) as H1 by by_evaluation.
  assert (Contains (TrimPrefix line_json "@cee: ") marker = false) as H2
    by by_evaluation.
  assert (owner (H:=Ref.lib) (H0:=Ref.siblings)
            (Scanner_line (H:=Ref.lib) Ref.opts0 st0 line1)
            (TrimPrefix line_json "@cee: ") = OwnJSON) as Ho
    by by_evaluation.
  assert (owner (H:=Ref.lib) (H0:=Ref.siblings)
            (Scanner_line (H:=Ref.lib) Ref.opts0 st0 line1)
            (TrimPrefix line_json "@cee: ") ≠ OwnNone) as H3.
  { rewrite Ho. discriminate. }
  assert (TryHandle (H:=Ref.lib)
            (journalJSONEntry
               (Scanner_line (H:=Ref.lib) (H0:=Ref.siblings) Ref.opts0
                  (Scanner_line (H:=Ref.lib) Ref.opts0 st0 line1) line_json))
            (TrimPrefix line2 "@cee: ") = (true, h_after_json)) as H4
    by by_evaluation.
  exact (proj1 (snapshot_survives_other_handler (L:=Ref.lib) (S:=Ref.siblings)
                  Ref.opts0 st0 line1 line_json line2 h_line1 h_after_json
                  eq_refl H1 H2 H3 H4)).
Defined.

(** [line1] with and without a newline after it: the same bytes written
    and the same result. *)
Lemma final_newline_optional_witness :
  Scanner (H:=Ref.lib) (H0:=Ref.siblings) (line1 +:+ eol) Ref.opts0
  = Scanner (H:=Ref.lib) (H0:=Ref.siblings) line1 Ref.opts0.
Proof.
  assert (line1 ≠ "") as H1.
  { refine (bool_decide_eq_false_1 _ _). by_evaluation. }
  assert (last_byte line1 ≠ Some "010"%char) as H2.
  { refine (bool_decide_eq_false_1 _ _). by_evaluation. }
  exact (final_newline_optional (L:=Ref.lib) (S:=Ref.siblings) line1 Ref.opts0
           H1 H2).
Defined.

(** The line [=] with and without the prefix. *)
Lemma cee_prefix_transparent_witness :
  Scanner_line (H:=Ref.lib) (H0:=Ref.siblings) Ref.opts0 st0 ("@cee: " +:+ "=")
  = Scanner_line (H:=Ref.lib) (H0:=Ref.siblings) Ref.opts0 st0 "=".
Proof.
  assert (HasPrefix "=" "@cee: " = false) as H1 by by_evaluation.
  exact (cee_prefix_transparent (L:=Ref.lib) (S:=Ref.siblings) Ref.opts0 st0
           "=" H1).
Defined.

